(** * The NEX web application: registration, e-mail code login, password reset

    A shallow embedding of [myapp/models.py], [myapp/views.py] and
    [myapp/urls.py].  The Django pieces the views call are modelled by what
    the views observe of them:

    - the table of [AppUser] rows is a finite map from primary key to row
      ([gmap nat AppUser]); [objects.get] raises [DoesNotExist] or
      [MultipleObjectsReturned] unless exactly one row matches;
    - [request.session] and [request.POST] are finite maps with string keys;
    - the password hasher ([make_password], [check_password]) is a parameter
      of the development, its random salt an explicit argument;
    - [random.randint], the salts and the outcome of [send_mail] are inputs of
      a request, gathered in [Env];
    - a view returns the response together with the new state of the world;
      an exception that leaves the view is the response [ServerError]. *)

From stdpp Require Import gmap strings list fin_maps pretty.
From Stdlib Require Import ZArith Lia Ascii.

Open Scope string_scope.

(** ** Python values and exceptions *)

Inductive Exception :=
  | DoesNotExist
  | MultipleObjectsReturned
  | IntegrityError
  | SMTPException
  | KeyError.

Inductive Result (A : Type) :=
  | Ok (a : A)
  | Raise (e : Exception).
Arguments Ok {A} a.
Arguments Raise {A} e.

(** [str(n)] on an integer. *)
Definition py_str (n : Z) : string := pretty n.

(** ** models.py *)

Module Models.

Record AppUser := mkAppUser {
  id : option nat;                    (* primary key, [None] before the first save *)
  first_name : string;
  last_name : string;
  email : string;                     (* unique=True *)
  password : string;
  verification_code : option string   (* null=True *)
}.

Definition set_id (i : nat) (u : AppUser) : AppUser :=
  mkAppUser (Some i) (first_name u) (last_name u) (email u) (password u)
            (verification_code u).

Definition set_password (p : string) (u : AppUser) : AppUser :=
  mkAppUser (id u) (first_name u) (last_name u) (email u) p
            (verification_code u).

Definition set_verification_code (c : option string) (u : AppUser) : AppUser :=
  mkAppUser (id u) (first_name u) (last_name u) (email u) (password u) c.

(** *** The manager [AppUser.objects] *)

(** The rows a query selects, each one as the instance the ORM builds from
    it: its [id] is the key of the row. *)
Definition objects_filter (P : AppUser → bool) (db : gmap nat AppUser)
    : list AppUser :=
  (λ ir : nat * AppUser, set_id ir.1 ir.2)
    <$> map_to_list (filter (λ ir : nat * AppUser, P ir.2) db).

Definition objects_exists (P : AppUser → bool) (db : gmap nat AppUser) : bool :=
  match objects_filter P db with
  | [] => false
  | _ => true
  end.

Definition objects_get (P : AppUser → bool) (db : gmap nat AppUser)
    : Result AppUser :=
  match objects_filter P db with
  | [] => Raise DoesNotExist
  | [u] => Ok u
  | _ => Raise MultipleObjectsReturned
  end.

(** The lookups the views use, both exact comparisons of text.
    [email=None] compiles to [IS NULL], which no row satisfies, the column
    not being nullable; [verification_code=None] selects the rows whose code
    is null. *)
Definition email_is (q : option string) (u : AppUser) : bool :=
  match q with
  | Some e => String.eqb (email u) e
  | None => false
  end.

Definition code_is (q : option string) (u : AppUser) : bool :=
  bool_decide (verification_code u = q).

(** *** [Model.save]: the row is written under its primary key, a new
    instance gets a fresh one; the unique index on [email] refuses a row whose
    email another row holds. *)
Definition email_held_by_other (u : AppUser) (db : gmap nat AppUser) : bool :=
  match map_to_list (filter (λ ir : nat * AppUser,
            email ir.2 = email u ∧ Some ir.1 ≠ id u) db) with
  | [] => false
  | _ => true
  end.

Definition Model_save (u : AppUser) (db : gmap nat AppUser)
    : Result (AppUser * gmap nat AppUser) :=
  if email_held_by_other u db then Raise IntegrityError
  else
    let i := match id u with
             | Some i => i
             | None => fresh (dom db)
             end in
    Ok (set_id i u, <[i := set_id i u]> db).

Section Hasher.

(** [django.contrib.auth.hashers]: [make_password raw salt] encodes a raw
    password ([None] gives an unusable password), [check_password raw encoded]
    checks a raw password against an encoded one. *)
Variable make_password : option string → string → string.
Variable check_password : option string → string → bool.

(** [AppUser.save] *)
Definition AppUser_save (salt : string) (u : AppUser) (db : gmap nat AppUser)
    : Result (AppUser * gmap nat AppUser) :=
  let u' :=
    if negb (String.prefix "pbkdf2_sha256$" (password u))
    then set_password (make_password (Some (password u)) salt) u
    else u in
  Model_save u' db.

(** [AppUser.check_password] *)
Definition AppUser_check_password (u : AppUser) (raw_password : option string)
    : bool :=
  check_password raw_password (password u).

(** [AppUser.generate_verification_code]; [n] is the value
    [random.randint(100000, 999999)] returns. *)
Definition generate_verification_code (n : Z) (salt : string) (u : AppUser)
    (db : gmap nat AppUser) : Result (AppUser * gmap nat AppUser) :=
  AppUser_save salt (set_verification_code (Some (py_str n)) u) db.

End Hasher.

(** What [random.randint(lo, hi)] can return. *)
Definition randint_returns (lo hi n : Z) : Prop := (lo ≤ n ≤ hi)%Z.

(** The decimal digit of [n] at position [k], counted from the right. *)
Definition digit_at (n k : Z) : Ascii.ascii :=
  pretty_N_char (Z.to_N ((n / 10 ^ k) mod 10)).

End Models.

Export Models.

(** ** views.py *)

Module Views.

(** A value stored in the session: the views store e-mail addresses and the
    flag [True]. *)
Inductive SVal :=
  | SStr (s : string)
  | SBool (b : bool).

(** Python truth of [request.session.get(key)]. *)
Definition truthy (v : option SVal) : bool :=
  match v with
  | None => false
  | Some (SStr s) => negb (String.eqb s "")
  | Some (SBool b) => b
  end.

(** The text a session value is compared to a [CharField] column as
    ([CharField.to_python] applies [str] to what is not a string). *)
Definition to_python (v : SVal) : string :=
  match v with
  | SStr s => s
  | SBool true => "True"
  | SBool false => "False"
  end.

(** Python [not x] on what [request.POST.get(key)] returns: it holds of
    [None] and of the empty string. *)
Definition py_not (x : option string) : bool :=
  match x with
  | None => true
  | Some s => String.eqb s ""
  end.

Record HttpRequest := mkRequest {
  method : string;
  POST : gmap string string
}.

(** A message handed to [send_mail]: the subject, the two values the body
    template interpolates ([user.first_name] and [user.verification_code]),
    sender and recipients. *)
Record Mail := mkMail {
  subject : string;
  body_first_name : string;
  body_code : option string;
  from_email : string;
  recipient_list : list string
}.

(** What a request changes or reads: the user table, the session of the
    browser and the mails sent so far. *)
Record World := mkWorld {
  db : gmap nat AppUser;
  session : gmap string SVal;
  outbox : list Mail
}.

Definition set_db (d : gmap nat AppUser) (w : World) : World :=
  mkWorld d (session w) (outbox w).

Definition set_session (s : gmap string SVal) (w : World) : World :=
  mkWorld (db w) s (outbox w).

Definition set_outbox (o : list Mail) (w : World) : World :=
  mkWorld (db w) (session w) o.

(** What a request draws from outside: the value of [random.randint], the
    salt of the [make_password] call of the view, the salt of the one inside
    [AppUser.save], and whether [send_mail] delivers (with
    [fail_silently=False] it raises otherwise). *)
Record Env := mkEnv {
  randint : Z;
  salt_view : string;
  salt_save : string;
  mail_delivered : bool
}.

(** [render(request, template, context)], [redirect(name)], or the exception
    that left the view.  A context maps a name to a text or to [None]. *)
Inductive HttpResponse :=
  | Render (template : string) (context : list (string * option string))
  | Redirect (to : string)
  | ServerError (e : Exception).

Definition is_post (request : HttpRequest) : bool :=
  String.eqb (method request) "POST".

Definition welcome (request : HttpRequest) (w : World) : HttpResponse * World :=
  (Render "welcome.html" [], w).

Section Hasher.

Variable make_password : option string → string → string.
Variable check_password : option string → string → bool.

Definition login_view (request : HttpRequest) (env : Env) (w : World)
    : HttpResponse * World :=
  if is_post request then
    let email := POST request !! "email" in
    let password := POST request !! "password" in
    match objects_get (email_is email) (db w) with
    | Raise DoesNotExist =>
        (Render "login.html" [("error", Some "Correo no registrado.")], w)
    | Raise e => (ServerError e, w)
    | Ok user =>
        if negb (AppUser_check_password check_password user password) then
          (Render "login.html" [("error", Some "Contraseña incorrecta.")], w)
        else
          match generate_verification_code make_password (randint env)
                  (salt_save env) user (db w) with
          | Raise e => (ServerError e, w)
          | Ok (user, db') =>
              let w := set_db db' w in
              if mail_delivered env then
                let w := set_outbox
                  (mkMail "🔐 Tu código de verificación - NEX"
                     (first_name user) (verification_code user)
                     (Models.email user) [Models.email user] :: outbox w) w in
                (Redirect "verify_code",
                 set_session (<["user_email" := SStr (Models.email user)]>
                                (session w)) w)
              else (ServerError SMTPException, w)
          end
    end
  else (Render "login.html" [], w).

(** Past the check of the fields all four are present, so the [default]s
    below never apply. *)
Definition register (request : HttpRequest) (env : Env) (w : World)
    : HttpResponse * World :=
  if is_post request then
    let first_name := POST request !! "first_name" in
    let last_name := POST request !! "last_name" in
    let email := POST request !! "email" in
    let password := POST request !! "password" in
    if py_not first_name || py_not last_name || py_not email
       || py_not password then
      (Render "register.html"
         [("error", Some "Todos los campos son obligatorios")], w)
    else if objects_exists (email_is email) (db w) then
      (Render "register.html" [("error", Some "El correo ya está en uso")], w)
    else
      let user := mkAppUser None (default "" first_name) (default "" last_name)
                    (default "" email)
                    (make_password password (salt_view env)) None in
      match AppUser_save make_password (salt_save env) user (db w) with
      | Raise e => (ServerError e, w)
      | Ok (_, db') => (Redirect "login", set_db db' w)
      end
  else (Render "register.html" [], w).

Definition verify_code (request : HttpRequest) (w : World)
    : HttpResponse * World :=
  let email := session w !! "user_email" in
  if negb (truthy email) then (Redirect "login", w)
  else if is_post request then
    let code := POST request !! "code" in
    match objects_get (λ u, email_is (to_python <$> email) u && code_is code u)
            (db w) with
    | Ok user =>
        (Redirect "home",
         set_session (<["authenticated_user" := SStr (Models.email user)]>
                        (session w)) w)
    | Raise DoesNotExist =>
        (Render "verify_code.html" [("error", Some "Código incorrecto.")], w)
    | Raise e => (ServerError e, w)
    end
  else (Render "verify_code.html" [], w).

Definition forgot_password (request : HttpRequest) (env : Env) (w : World)
    : HttpResponse * World :=
  if is_post request then
    let email := POST request !! "email" in
    match objects_get (email_is email) (db w) with
    | Raise DoesNotExist =>
        (Render "forgot_password.html"
           [("error", Some "Correo no registrado.")], w)
    | Raise e => (ServerError e, w)
    | Ok user =>
        match generate_verification_code make_password (randint env)
                (salt_save env) user (db w) with
        | Raise e => (ServerError e, w)
        | Ok (user, db') =>
            let w := set_db db' w in
            if mail_delivered env then
              let w := set_outbox
                (mkMail "🔐 Recuperación de contraseña - NEX"
                   (first_name user) (verification_code user)
                   (Models.email user) [Models.email user] :: outbox w) w in
              (Redirect "verify_reset_code",
               set_session (<["reset_email" := SStr (Models.email user)]>
                              (session w)) w)
            else (ServerError SMTPException, w)
        end
    end
  else (Render "forgot_password.html" [], w).

Definition verify_reset_code (request : HttpRequest) (w : World)
    : HttpResponse * World :=
  let email := session w !! "reset_email" in
  if negb (truthy email) then (Redirect "forgot_password", w)
  else if is_post request then
    let code := POST request !! "code" in
    match objects_get (λ u, email_is (to_python <$> email) u && code_is code u)
            (db w) with
    | Ok user =>
        (Redirect "reset_password",
         set_session (<["verified_reset" := SBool true]> (session w)) w)
    | Raise DoesNotExist =>
        (Render "verify_reset_code.html"
           [("error", Some "Código incorrecto.")], w)
    | Raise e => (ServerError e, w)
    end
  else (Render "verify_reset_code.html" [], w).

(** [del request.session[key]] *)
Definition session_del (key : string) (s : gmap string SVal)
    : Result (gmap string SVal) :=
  match s !! key with
  | Some _ => Ok (delete key s)
  | None => Raise KeyError
  end.

Definition reset_password (request : HttpRequest) (env : Env) (w : World)
    : HttpResponse * World :=
  let email := session w !! "reset_email" in
  let verified := session w !! "verified_reset" in
  if negb (truthy email) || negb (truthy verified) then
    (Redirect "forgot_password", w)
  else if is_post request then
    let new_password := POST request !! "password" in
    match objects_get (email_is (to_python <$> email)) (db w) with
    | Raise e => (ServerError e, w)
    | Ok user =>
        let user := set_password (make_password new_password (salt_view env))
                      user in
        let user := set_verification_code None user in
        match AppUser_save make_password (salt_save env) user (db w) with
        | Raise e => (ServerError e, w)
        | Ok (_, db') =>
            let w := set_db db' w in
            match session_del "reset_email" (session w) with
            | Raise e => (ServerError e, w)
            | Ok s1 =>
                match session_del "verified_reset" s1 with
                | Raise e => (ServerError e, w)
                | Ok s2 => (Redirect "login", set_session s2 w)
                end
            end
        end
    end
  else (Render "reset_password.html" [], w).

End Hasher.

Definition logout_view (request : HttpRequest) (w : World)
    : HttpResponse * World :=
  (Redirect "login", set_session ∅ w).

Definition home (request : HttpRequest) (w : World) : HttpResponse * World :=
  if negb (truthy (session w !! "authenticated_user")) then
    (Redirect "login", w)
  else (Render "home.html" [], w).

Definition historia_clinica (request : HttpRequest) (w : World)
    : HttpResponse * World :=
  if negb (truthy (session w !! "authenticated_user")) then
    (Redirect "login", w)
  else (Render "historia clinica.html" [], w).

(** *** The classifier *)

Section Classifier.

(** The loaded model and tokenizer are opaque; [predict modelo tokenizer texto]
    is the index [torch.max(outputs.logits, dim=1)] selects for [texto]. *)
Variables Modelo Tokenizer : Type.
Variable predict : Modelo → Tokenizer → string → Z.

(** The module-level load: both globals stay [None] when the model directory
    is missing, and are reset to [None] when either [from_pretrained] raises. *)
Definition cargar_modelo (directorio_existe : bool)
    (modelo : Result Modelo) (tokenizer : Result Tokenizer)
    : option Modelo * option Tokenizer :=
  if negb directorio_existe then (None, None)
  else
    match modelo with
    | Raise _ => (None, None)
    | Ok m =>
        match tokenizer with
        | Raise _ => (None, None)
        | Ok t => (Some m, Some t)
        end
    end.

Variable modelo_cargado : option Modelo.
Variable tokenizer_cargado : option Tokenizer.

Definition labels (prediction_id : Z) : option string :=
  match prediction_id with
  | 0%Z => Some "Control Sano (CO)"
  | 1%Z => Some "Cáncer Colorrectal (CRC)"
  | _ => None
  end.

Definition predecir_con_modelo_entrenado (texto : string) : string :=
  match modelo_cargado, tokenizer_cargado with
  | Some modelo, Some tokenizer =>
      default "Categoría Desconocida" (labels (predict modelo tokenizer texto))
  | _, _ => "Error: Modelo no disponible. Revisa los logs del servidor."
  end.

Definition hacer_prediccion_view (request : HttpRequest) (w : World)
    : HttpResponse * World :=
  let resultado_prediccion : option string := None in
  let texto_ingresado := "" in
  let '(resultado_prediccion, texto_ingresado) :=
    if is_post request then
      let texto_ingresado := default "" (POST request !! "texto_clinico") in
      if negb (String.eqb texto_ingresado "") then
        (Some (predecir_con_modelo_entrenado texto_ingresado), texto_ingresado)
      else (resultado_prediccion, texto_ingresado)
    else (resultado_prediccion, texto_ingresado) in
  (Render "hacer_prediccion.html"
     [("resultado_prediccion", resultado_prediccion);
      ("texto_ingresado", Some texto_ingresado)], w).

End Classifier.

End Views.

Export Views.

(** ** urls.py *)

Module Urls.

Inductive View :=
  | v_welcome | v_login_view | v_register | v_verify_code | v_forgot_password
  | v_verify_reset_code | v_reset_password | v_logout_view | v_home
  | v_historia_clinica | v_hacer_prediccion_view.

Definition urlpatterns : list (string * View) :=
  [ ("", v_welcome);
    ("login/", v_login_view);
    ("register/", v_register);
    ("verify_code/", v_verify_code);
    ("forgot_password/", v_forgot_password);
    ("verify_reset_code/", v_verify_reset_code);
    ("reset_password/", v_reset_password);
    ("logout/", v_logout_view);
    ("home/", v_home);
    ("historia_clinica/", v_historia_clinica);
    ("prediccion/", v_hacer_prediccion_view) ].

Definition resolve (path : string) : option View :=
  snd <$> List.find (λ p, String.eqb (fst p) path) urlpatterns.

(** The shape of the reset keys of a session: [reset_email], when present,
    holds a text, and [verified_reset], when present, holds [True] and stands
    next to a [reset_email] key.  Nothing is said of whose address the text
    is, nor that it is non-empty. *)
Definition reset_keys_consistent (s : gmap string SVal) : Prop :=
  (∀ v, s !! "reset_email" = Some v → ∃ e, v = SStr e)
  ∧ (∀ v, s !! "verified_reset" = Some v →
       v = SBool true ∧ is_Some (s !! "reset_email")).

Section Site.

Variable make_password : option string → string → string.
Variable check_password : option string → string → bool.
Variables Modelo Tokenizer : Type.
Variable predict : Modelo → Tokenizer → string → Z.
Variable modelo_cargado : option Modelo.
Variable tokenizer_cargado : option Tokenizer.

Definition call (v : View) (request : HttpRequest) (env : Env) (w : World)
    : HttpResponse * World :=
  match v with
  | v_welcome => welcome request w
  | v_login_view => login_view make_password check_password request env w
  | v_register => register make_password request env w
  | v_verify_code => verify_code request w
  | v_forgot_password => forgot_password make_password request env w
  | v_verify_reset_code => verify_reset_code request w
  | v_reset_password => reset_password make_password request env w
  | v_logout_view => logout_view request w
  | v_home => home request w
  | v_historia_clinica => historia_clinica request w
  | v_hacer_prediccion_view =>
      hacer_prediccion_view Modelo Tokenizer predict modelo_cargado
        tokenizer_cargado request w
  end.

(** One request of the browser served: the world after the view the path
    resolves to.  Between two of its requests, the requests of other browsers
    change the user table and the mails, not its session. *)
Inductive step (w : World) : World → Prop :=
  | step_request path v request env :
      resolve path = Some v →
      step w (call v request env w).2
  | step_elsewhere db' outbox' :
      step w (mkWorld db' (session w) outbox').

(** The worlds a browser can reach from a fresh (empty) session. *)
Inductive reachable (db0 : gmap nat AppUser) : World → Prop :=
  | reachable_fresh : reachable db0 (mkWorld db0 ∅ [])
  | reachable_step w w' : reachable db0 w → step w w' → reachable db0 w'.

End Site.

End Urls.

Export Urls.

(** ** The password hasher *)

Module Hashers.

(** What the views rely on of [django.contrib.auth.hashers] under Django's
    default [PASSWORD_HASHERS]: an encoded password starts with the name of
    the algorithm, [check_password] accepts the raw password an encoding was
    made from, and (the idealisation of a hash without collisions) no other. *)
Record Sound (make_password : option string → string → string)
    (check_password : option string → string → bool) : Prop := {
  encoded_prefix raw salt :
    String.prefix "pbkdf2_sha256$" (make_password (Some raw) salt) = true;
  check_accepts raw salt :
    check_password (Some raw) (make_password (Some raw) salt) = true;
  check_rejects raw raw' salt :
    raw ≠ raw' →
    check_password (Some raw') (make_password (Some raw) salt) = false
}.

(** A small hasher to run the views on concrete requests: the encoding is the
    algorithm name, a marker, and the raw password. *)
Definition plain_make_password (raw : option string) (salt : string) : string :=
  match raw with
  | Some raw => "pbkdf2_sha256$plain$" +:+ raw
  | None => "!" +:+ salt
  end.

Definition plain_check_password (raw : option string) (encoded : string) : bool :=
  match raw with
  | Some raw => String.eqb encoded ("pbkdf2_sha256$plain$" +:+ raw)
  | None => false
  end.

End Hashers.

(** ** Sample data *)

Module Samples.

Definition ana : AppUser :=
  mkAppUser (Some 1) "Ana" "Lopez" "ana@x.com" "pbkdf2_sha256$plain$Secret1"
            (Some "482913").

Definition db_ana : gmap nat AppUser := {[ 1 := ana ]}.

Definition env0 : Env := mkEnv 482913 "s1" "s2" true.

Definition post (fields : list (string * string)) : HttpRequest :=
  mkRequest "POST" (list_to_map fields).

(** Ana has passed the password check and waits for her code. *)
Definition awaiting_code : World :=
  mkWorld db_ana {[ "user_email" := SStr "ana@x.com" ]} [].

(** Ana's reset code has been checked. *)
Definition reset_authorized : World :=
  mkWorld db_ana
    (<[ "verified_reset" := SBool true ]>
       {[ "reset_email" := SStr "ana@x.com" ]}) [].

Definition anonymous : World := mkWorld db_ana ∅ [].

(** A new instance whose password field holds a raw password that starts
    like an encoded one. *)
Definition eva : AppUser :=
  mkAppUser None "Eva" "Ruiz" "eva@x.com" "pbkdf2_sha256$hunter2" None.

Definition eva_saved : AppUser := set_id 2 eva.

(** A new instance whose password field holds an ordinary raw password, and
    the instance after its first save with the small hasher. *)
Definition eli : AppUser :=
  mkAppUser None "Eli" "Sanz" "eli@x.com" "hunter2" None.

Definition eli_saved : AppUser :=
  mkAppUser (Some 2) "Eli" "Sanz" "eli@x.com" "pbkdf2_sha256$plain$hunter2"
            None.

Definition register_luis : HttpRequest :=
  post [("first_name", "Luis"); ("last_name", "Mora");
        ("email", "luis@x.com"); ("password", "Clave9")].

Definition login_luis : HttpRequest :=
  post [("email", "luis@x.com"); ("password", "Clave9")].

(** Ana's row with no code stored (none issued yet, or cleared by a reset),
    and a session that awaits her login code. *)
Definition ana_without_code : AppUser := set_verification_code None ana.

Definition awaiting_code_none : World :=
  mkWorld {[ 1 := ana_without_code ]}
    {[ "user_email" := SStr "ana@x.com" ]} [].

(** Ana has asked for a password reset and waits for her code. *)
Definition awaiting_reset_code : World :=
  mkWorld db_ana {[ "reset_email" := SStr "ana@x.com" ]} [].

Definition get (fields : list (string * string)) : HttpRequest :=
  mkRequest "GET" (list_to_map fields).

(** A table with a second user, and a session in which Ana's reset code has
    been checked. *)
Definition luis : AppUser :=
  mkAppUser (Some 2) "Luis" "Mora" "luis@x.com" "pbkdf2_sha256$plain$Clave9"
            None.

Definition db_two : gmap nat AppUser := <[ 2 := luis ]> db_ana.

Definition reset_authorized_two : World :=
  mkWorld db_two
    (<[ "verified_reset" := SBool true ]>
       {[ "reset_email" := SStr "ana@x.com" ]}) [].

Definition env_no_mail : Env := mkEnv 271828 "s1" "s2" false.

(** A browser with a fresh session on the table of Ana and Luis: it asks for
    a reset of Ana's password, submits Ana's code, then asks for a reset of
    Luis's password (the code 271828 goes to Luis by mail and is never
    submitted), and posts a new password. *)
Definition fresh_two : World := mkWorld db_two ∅ [].

Definition env_luis : Env := mkEnv 271828 "s1" "s2" true.

Definition two_after_forgot_ana : World :=
  (forgot_password Hashers.plain_make_password
     (post [("email", "ana@x.com")]) env0 fresh_two).2.

Definition two_after_verify_ana : World :=
  (verify_reset_code (post [("code", "482913")]) two_after_forgot_ana).2.

Definition two_after_forgot_luis : World :=
  (forgot_password Hashers.plain_make_password
     (post [("email", "luis@x.com")]) env_luis two_after_verify_ana).2.

(** Ana asks for a password reset, then submits the code she was sent. *)
Definition after_forgot_password : World :=
  (forgot_password Hashers.plain_make_password
     (post [("email", "ana@x.com")]) env0 anonymous).2.

Definition after_verify_reset_code : World :=
  (verify_reset_code (post [("code", "482913")]) after_forgot_password).2.

End Samples.

(** ** Shapes of the table *)

(** No two rows hold the same e-mail (what [unique=True] asks of the table). *)
Definition unique_emails (t : gmap nat AppUser) : Prop :=
  ∀ i j r r', t !! i = Some r → t !! j = Some r' → email r = email r' → i = j.

(** Linear arithmetic with division and remainder by constants. *)
Ltac div_lia := Zify.zify; Z.to_euclidean_division_equations; lia.

(** * Properties *)

(** ** The table *)

Section Table.

Implicit Types (db : gmap nat AppUser) (u r : AppUser) (P : AppUser → bool).

Lemma set_id_same i u : id u = Some i → set_id i u = u.
Proof. destruct u; simpl; by intros ->. Qed.

(** A query that selects nothing. *)
Lemma objects_filter_nil P db :
  objects_filter P db = [] ↔ ∀ i r, db !! i = Some r → P r = false.
Proof.
  unfold objects_filter.
  assert (∀ l : list (nat * AppUser),
    (λ ir : nat * AppUser, set_id ir.1 ir.2) <$> l = [] ↔ l = []) as ->
    by (by intros []).
  rewrite map_to_list_empty_iff, map_empty. split.
  - intros H i r Hir. specialize (H i).
    rewrite map_lookup_filter_None in H. destruct H as [H|H]; [congruence|].
    specialize (H r Hir). simpl in H. by destruct (P r).
  - intros H i. rewrite map_lookup_filter_None. right. intros r Hir.
    simpl. rewrite (H i r Hir). auto.
Qed.

(** A query that selects exactly the row under key [i]. *)
Lemma objects_filter_one P db i r :
  db !! i = Some r → P r = true →
  (∀ j r', db !! j = Some r' → P r' = true → j = i) →
  objects_filter P db = [set_id i r].
Proof.
  intros Hi HP Huniq. unfold objects_filter.
  assert (filter (λ ir : nat * AppUser, P ir.2) db = {[i := r]}) as ->.
  { apply map_eq. intros j. destruct (decide (j = i)) as [->|Hne].
    - rewrite lookup_singleton_eq. apply map_lookup_filter_Some. simpl.
      split; [done|]. by rewrite HP.
    - rewrite lookup_singleton_ne by done. apply map_lookup_filter_None.
      right. intros r' Hj HP'. simpl in HP'. apply Hne, (Huniq j r' Hj).
      by destruct (P r'). }
  by rewrite map_to_list_singleton.
Qed.

Lemma objects_filter_one_inv P db u :
  objects_filter P db = [u] →
  ∃ i r, u = set_id i r ∧ db !! i = Some r ∧ P r = true
         ∧ ∀ j r', db !! j = Some r' → P r' = true → j = i.
Proof.
  unfold objects_filter. intros H.
  destruct (map_to_list (filter (λ ir : nat * AppUser, P ir.2) db))
    as [|[i r] [|??]] eqn:E; simplify_eq/=.
  assert (filter (λ ir : nat * AppUser, P ir.2) db = {[i := r]}) as Hf.
  { rewrite <-(list_to_map_to_list (filter _ db)), E. done. }
  exists i, r. split; [done|].
  assert (filter (λ ir : nat * AppUser, P ir.2) db !! i = Some r) as Hi
    by (by rewrite Hf, lookup_singleton_eq).
  apply map_lookup_filter_Some in Hi as [Hi HP]. simpl in HP.
  split; [done|]. split; [by destruct (P r)|].
  intros j r' Hj HP'.
  assert (filter (λ ir : nat * AppUser, P ir.2) db !! j = Some r') as Hj'.
  { apply map_lookup_filter_Some. simpl. by rewrite HP'. }
  rewrite Hf in Hj'. apply lookup_singleton_Some in Hj' as [??]. done.
Qed.

Lemma objects_get_Ok P db u :
  objects_get P db = Ok u ↔
  ∃ i r, u = set_id i r ∧ db !! i = Some r ∧ P r = true
         ∧ ∀ j r', db !! j = Some r' → P r' = true → j = i.
Proof.
  unfold objects_get. split.
  - destruct (objects_filter P db) as [|u' [|??]] eqn:E; intros H;
      simplify_eq. by apply objects_filter_one_inv.
  - intros (i & r & -> & Hi & HP & Huniq).
    by rewrite (objects_filter_one P db i r).
Qed.

Lemma objects_get_DoesNotExist P db :
  objects_get P db = Raise DoesNotExist ↔
  ∀ i r, db !! i = Some r → P r = false.
Proof.
  rewrite <-objects_filter_nil. unfold objects_get.
  destruct (objects_filter P db) as [|u' [|??]]; split; intros; simplify_eq;
    done.
Qed.

Lemma objects_exists_false P db :
  objects_exists P db = false ↔ ∀ i r, db !! i = Some r → P r = false.
Proof.
  rewrite <-objects_filter_nil. unfold objects_exists.
  destruct (objects_filter P db); split; intros; simplify_eq; done.
Qed.

Lemma email_is_Some e u : email_is (Some e) u = true ↔ email u = e.
Proof. simpl. apply String.eqb_eq. Qed.

Lemma email_held_by_other_false u db :
  email_held_by_other u db = false ↔
  ∀ j r, db !! j = Some r → email r = email u → Some j = id u.
Proof.
  unfold email_held_by_other.
  destruct (map_to_list _) as [|[j r] l] eqn:E.
  - split; [|done]. intros _ j r Hj He.
    apply map_to_list_empty_iff in E.
    assert (filter (λ ir : nat * AppUser,
              email ir.2 = email u ∧ Some ir.1 ≠ id u) db !! j = None) as Hn
      by (by rewrite E, lookup_empty).
    apply map_lookup_filter_None in Hn as [Hn|Hn]; [congruence|].
    specialize (Hn r Hj). simpl in Hn.
    destruct (decide (Some j = id u)); [done|]. by destruct Hn.
  - split; [done|]. intros H.
    assert ((j, r) ∈ map_to_list (filter (λ ir : nat * AppUser,
              email ir.2 = email u ∧ Some ir.1 ≠ id u) db)) as Hin
      by (rewrite E; left).
    apply elem_of_map_to_list, map_lookup_filter_Some in Hin
      as [Hj [He Hne]]. simpl in *. destruct Hne. by apply (H j r).
Qed.

End Table.

(** The small hasher meets the assumptions on the hasher. *)
Lemma plain_sound :
  Hashers.Sound Hashers.plain_make_password Hashers.plain_check_password.
Proof.
  split.
  - intros raw salt. reflexivity.
  - intros raw salt. simpl. apply String.eqb_refl.
  - intros raw raw' salt Hne. simpl. apply String.eqb_neq.
    intros [=]. done.
Qed.

Section Saving.

Implicit Types (db : gmap nat AppUser) (u r : AppUser).

(** What fetching a user by e-mail tells about the table. *)
Lemma objects_get_email_Ok db e u :
  objects_get (email_is (Some e)) db = Ok u →
  ∃ i r, u = set_id i r ∧ id u = Some i ∧ email u = e ∧ db !! i = Some r
         ∧ ∀ j r', db !! j = Some r' → email r' = e → j = i.
Proof.
  intros (i & r & -> & Hi & HP & Huniq)%objects_get_Ok.
  apply email_is_Some in HP. exists i, r. repeat split; try done.
  intros j r' Hj He. apply (Huniq j r' Hj). by apply email_is_Some.
Qed.

(** Writing back a fetched instance whose e-mail was not changed. *)
Lemma Model_save_fetched db u i :
  id u = Some i →
  (∀ j r, db !! j = Some r → email r = email u → j = i) →
  Model_save u db = Ok (u, <[i := u]> db).
Proof.
  intros Hid Huniq. unfold Model_save.
  assert (email_held_by_other u db = false) as ->.
  { apply email_held_by_other_false. intros j r Hj He.
    rewrite Hid. f_equal. eauto. }
  by rewrite Hid, (set_id_same i u).
Qed.

(** The first save of an instance whose e-mail no row holds. *)
Lemma Model_save_new db u :
  id u = None →
  (∀ j r, db !! j = Some r → email r ≠ email u) →
  Model_save u db
  = Ok (set_id (fresh (dom db)) u, <[fresh (dom db) := set_id (fresh (dom db)) u]> db)
  ∧ db !! fresh (dom db) = None.
Proof.
  intros Hid Hnone. unfold Model_save.
  assert (email_held_by_other u db = false) as ->.
  { apply email_held_by_other_false. intros j r Hj He.
    by destruct (Hnone j r Hj). }
  rewrite Hid. split; [done|].
  apply not_elem_of_dom, is_fresh.
Qed.

(** The row written under key [i] is the one its e-mail selects. *)
Lemma objects_get_email_insert db i u :
  id u = Some i →
  (∀ j r, db !! j = Some r → email r = email u → j = i) →
  objects_get (email_is (Some (email u))) (<[i := u]> db) = Ok u.
Proof.
  intros Hid Huniq. apply objects_get_Ok. exists i, u.
  split; [by rewrite set_id_same|]. split; [by rewrite lookup_insert_eq|].
  split; [by apply email_is_Some|].
  intros j r' Hj HP. apply email_is_Some in HP.
  destruct (decide (j = i)) as [|Hne]; [done|].
  rewrite lookup_insert_ne in Hj by done. eauto.
Qed.

End Saving.

(** ** Wrong code at [AwaitingCode] *)

(** C1.  In a session that awaits the login code of a registered user
    ([user_email] holds the user's address), a POST to [verify_code] whose
    code is not the one stored for that user returns the form with the error
    "Código incorrecto." and leaves the world as it was: the session (so
    [authenticated_user] is not set), the user table and the mails. *)
Theorem verify_code_wrong_code request w e u :
  session w !! "user_email" = Some (SStr e) →
  e ≠ "" →
  objects_get (email_is (Some e)) (db w) = Ok u →
  is_post request = true →
  POST request !! "code" ≠ verification_code u →
  verify_code request w
  = (Render "verify_code.html" [("error", Some "Código incorrecto.")], w).
Proof.
  intros Hs He Hu Hpost Hcode. unfold verify_code.
  rewrite Hs, Hpost. simpl.
  destruct (String.eqb_spec e "") as [|_]; [done|]. simpl.
  apply objects_get_email_Ok in Hu as (i & r & -> & _ & Hem & Hi & Huniq).
  assert (objects_get
    (λ u, String.eqb (email u) e && code_is (POST request !! "code") u) (db w)
    = Raise DoesNotExist) as ->; [|done].
  apply objects_get_DoesNotExist. intros j r' Hj.
  apply andb_false_iff.
  destruct (String.eqb_spec (email r') e) as [Heq|]; [right|by left].
  assert (j = i) as -> by eauto. simplify_eq.
  unfold code_is. apply bool_decide_eq_false. simpl in Hcode. congruence.
Qed.

Lemma verify_code_wrong_code_witness :
  verify_code (Samples.post [("code", "000000")]) Samples.awaiting_code
  = (Render "verify_code.html" [("error", Some "Código incorrecto.")],
     Samples.awaiting_code).
Proof.
  apply (verify_code_wrong_code _ _ "ana@x.com" Samples.ana).
  - reflexivity.
  - discriminate.
  - vm_compute. reflexivity.
  - reflexivity.
  - vm_compute. discriminate.
Defined.

(** ** Entry guards *)

(** C2.  A request that reaches a step-gated view while the session lacks
    what the step requires is redirected to the entry of its flow, whatever
    its method and its data, and the world (session, user table, mails) stays
    as it was: [verify_code] without [user_email] goes to [login],
    [verify_reset_code] without [reset_email] and [reset_password] without
    [reset_email] or without [verified_reset] go to [forgot_password]. *)
Theorem gate_redirects_to_entry make_password request env w :
  (truthy (session w !! "user_email") = false →
     verify_code request w = (Redirect "login", w))
  ∧ (truthy (session w !! "reset_email") = false →
     verify_reset_code request w = (Redirect "forgot_password", w))
  ∧ (truthy (session w !! "reset_email") = false
     ∨ truthy (session w !! "verified_reset") = false →
     reset_password make_password request env w
     = (Redirect "forgot_password", w)).
Proof.
  unfold verify_code, verify_reset_code, reset_password.
  repeat split.
  - by intros ->.
  - by intros ->.
  - intros [-> | ->]; [done|]. by rewrite orb_true_r.
Qed.

Lemma gate_redirects_to_entry_witness :
  verify_code (Samples.post [("code", "482913")]) Samples.anonymous
  = (Redirect "login", Samples.anonymous)
  ∧ verify_reset_code (Samples.post [("code", "482913")]) Samples.anonymous
    = (Redirect "forgot_password", Samples.anonymous)
  ∧ reset_password Hashers.plain_make_password
      (Samples.post [("password", "Secret2")]) Samples.env0 Samples.anonymous
    = (Redirect "forgot_password", Samples.anonymous).
Proof.
  destruct (gate_redirects_to_entry Hashers.plain_make_password
              (Samples.post [("code", "482913")]) Samples.env0
              Samples.anonymous) as (H1 & H2 & _).
  destruct (gate_redirects_to_entry Hashers.plain_make_password
              (Samples.post [("password", "Secret2")]) Samples.env0
              Samples.anonymous) as (_ & _ & H3).
  split; [apply H1; reflexivity|].
  split; [apply H2; reflexivity|].
  apply H3. left. reflexivity.
Defined.

(** ** Registration with a missing field *)

(** C10.  A registration POST in which one of [first_name], [last_name],
    [email], [password] is missing or empty returns the form with the error
    "Todos los campos son obligatorios" and leaves the world as it was, so no
    row is created; this holds for every table, also one that already holds
    the submitted e-mail: the check of the fields comes before the check for
    a duplicate. *)
Theorem register_missing_field make_password request env w :
  is_post request = true →
  py_not (POST request !! "first_name") = true
  ∨ py_not (POST request !! "last_name") = true
  ∨ py_not (POST request !! "email") = true
  ∨ py_not (POST request !! "password") = true →
  register make_password request env w
  = (Render "register.html"
       [("error", Some "Todos los campos son obligatorios")], w).
Proof.
  intros Hpost H. unfold register. rewrite Hpost.
  assert (py_not (POST request !! "first_name")
          || py_not (POST request !! "last_name")
          || py_not (POST request !! "email")
          || py_not (POST request !! "password") = true) as ->; [|done].
  rewrite !orb_true_iff. tauto.
Qed.

(** The submitted e-mail is Ana's, who is registered: the answer is still the
    one about the fields. *)
Lemma register_missing_field_witness :
  register Hashers.plain_make_password
    (Samples.post [("first_name", "Ana"); ("last_name", "");
                   ("email", "ana@x.com"); ("password", "Secret1")])
    Samples.env0 Samples.anonymous
  = (Render "register.html"
       [("error", Some "Todos los campos son obligatorios")],
     Samples.anonymous).
Proof.
  apply register_missing_field.
  - reflexivity.
  - right. left. vm_compute. reflexivity.
Defined.

(** ** The classifier without its model *)

Lemma cargar_modelo_failed {Modelo Tokenizer : Type} directorio_existe
    (modelo : Result Modelo) (tokenizer : Result Tokenizer) :
  directorio_existe = false ∨ (∃ e, modelo = Raise e)
  ∨ (∃ e, tokenizer = Raise e) →
  cargar_modelo Modelo Tokenizer directorio_existe modelo tokenizer
  = (None, None).
Proof.
  unfold cargar_modelo.
  intros [-> | [[e ->] | [e ->]]]; [done|by destruct directorio_existe|].
  by destruct directorio_existe, modelo.
Qed.

(** C9.  When the model or the tokenizer is not loaded,
    [predecir_con_modelo_entrenado] returns the fixed text "Error: Modelo no
    disponible. Revisa los logs del servidor." for every input text, and the
    prediction view answers every request with the rendered page, which shows
    that text for a POST with a non-empty [texto_clinico]; the world is not
    changed. *)
Theorem prediction_without_model {Modelo Tokenizer : Type}
    (predict : Modelo → Tokenizer → string → Z)
    (modelo_cargado : option Modelo) (tokenizer_cargado : option Tokenizer) :
  modelo_cargado = None ∨ tokenizer_cargado = None →
  (∀ texto,
     predecir_con_modelo_entrenado Modelo Tokenizer predict modelo_cargado
       tokenizer_cargado texto
     = "Error: Modelo no disponible. Revisa los logs del servidor.")
  ∧ (∀ request w,
       ∃ resultado texto,
         hacer_prediccion_view Modelo Tokenizer predict modelo_cargado
           tokenizer_cargado request w
         = (Render "hacer_prediccion.html"
              [("resultado_prediccion", resultado);
               ("texto_ingresado", Some texto)], w)
         ∧ (is_post request = true →
            py_not (POST request !! "texto_clinico") = false →
            resultado
            = Some "Error: Modelo no disponible. Revisa los logs del servidor."
            ∧ POST request !! "texto_clinico" = Some texto)).
Proof.
  intros Hnone.
  assert (∀ texto,
     predecir_con_modelo_entrenado Modelo Tokenizer predict modelo_cargado
       tokenizer_cargado texto
     = "Error: Modelo no disponible. Revisa los logs del servidor.") as Hp.
  { intros texto. unfold predecir_con_modelo_entrenado.
    destruct Hnone as [-> | ->]; [done|]. by destruct modelo_cargado. }
  split; [done|]. intros request w. unfold hacer_prediccion_view.
  destruct (is_post request); [|by eexists _, _].
  destruct (POST request !! "texto_clinico") as [texto|]; simpl;
    [|by eexists _, _].
  destruct (String.eqb texto ""); simpl; [by eexists _, _|].
  eexists _, _. split; [done|]. intros _ _. by rewrite Hp.
Qed.

Lemma prediction_without_model_witness :
  hacer_prediccion_view unit unit (λ (_ _ : unit) (_ : string), 0%Z) None None
    (Samples.post [("texto_clinico", "dolor abdominal")]) Samples.anonymous
  = (Render "hacer_prediccion.html"
       [("resultado_prediccion",
         Some "Error: Modelo no disponible. Revisa los logs del servidor.");
        ("texto_ingresado", Some "dolor abdominal")], Samples.anonymous).
Proof.
  destruct (prediction_without_model (λ (_ _ : unit) (_ : string), 0%Z) None None
              (or_introl eq_refl)) as [_ H].
  destruct (H (Samples.post [("texto_clinico", "dolor abdominal")])
              Samples.anonymous) as (resultado & texto & -> & Hr).
  destruct Hr as [-> Ht]; [reflexivity|reflexivity|].
  vm_compute in Ht. by simplify_eq.
Defined.

(** ** Saving an instance *)

Section SaveEncoded.

Variable make_password : option string → string → string.
Variable check_password : option string → string → bool.
Hypothesis sound : Hashers.Sound make_password check_password.

(** An encoded password is not hashed again. *)
Lemma AppUser_save_encoded salt u db raw s :
  password u = make_password (Some raw) s →
  AppUser_save make_password salt u db = Model_save u db.
Proof.
  intros Hp. unfold AppUser_save.
  by rewrite Hp, (Hashers.encoded_prefix _ _ sound).
Qed.

End SaveEncoded.

(** ** Password reset *)



(** ** Registration, then login *)

(** C6.  When all four fields of a registration POST are non-empty and the
    e-mail is not registered, [register] creates the user and redirects to
    [login]; a login POST with the same e-mail and password, whose mail
    [send_mail] delivers, then passes the password check, issues a
    verification code (stored on the user's row and put in the mail), sets
    [user_email] and redirects to [verify_code].  Neither request writes
    [authenticated_user]. *)
Theorem register_then_login make_password check_password
    request env w first_name last_name email password login_request env' :
  Hashers.Sound make_password check_password →
  is_post request = true →
  POST request !! "first_name" = Some first_name → first_name ≠ "" →
  POST request !! "last_name" = Some last_name → last_name ≠ "" →
  POST request !! "email" = Some email → email ≠ "" →
  POST request !! "password" = Some password → password ≠ "" →
  objects_exists (email_is (Some email)) (db w) = false →
  is_post login_request = true →
  POST login_request !! "email" = Some email →
  POST login_request !! "password" = Some password →
  mail_delivered env' = true →
  ∃ w1 w2 u1 u2,
    register make_password request env w = (Redirect "login", w1)
    ∧ session w1 = session w
    ∧ objects_get (email_is (Some email)) (db w1) = Ok u1
    ∧ Models.first_name u1 = first_name ∧ Models.last_name u1 = last_name
    ∧ AppUser_check_password check_password u1 (Some password) = true
    ∧ login_view make_password check_password login_request env' w1
      = (Redirect "verify_code", w2)
    ∧ session w2 = <["user_email" := SStr email]> (session w)
    ∧ session w2 !! "authenticated_user" = session w !! "authenticated_user"
    ∧ objects_get (email_is (Some email)) (db w2) = Ok u2
    ∧ verification_code u2 = Some (py_str (randint env'))
    ∧ ∃ mail, outbox w2 = mail :: outbox w
              ∧ body_code mail = Some (py_str (randint env'))
              ∧ recipient_list mail = [email].
Proof.
  intros Hsound Hpost Hfn Hfn0 Hln Hln0 Hem Hem0 Hpw Hpw0 Hnew
         Hpost' Hem' Hpw' Hmail.
  set (u0 := mkAppUser None first_name last_name email
               (make_password (Some password) (salt_view env)) None).
  set (i := fresh (dom (db w))).
  set (u1 := set_id i u0).
  set (u2 := set_verification_code (Some (py_str (randint env'))) u1).
  assert (∀ j r, db w !! j = Some r → Models.email r ≠ email) as Hfree.
  { intros j r Hj He.
    pose proof (proj1 (objects_exists_false _ _) Hnew j r Hj) as Hn.
    apply email_is_Some in He. congruence. }
  destruct (Model_save_new (db w) u0 eq_refl Hfree) as [Hsave Hi].
  fold i in Hsave, Hi. fold u1 in Hsave.
  assert (∀ j r, <[i := u1]> (db w) !! j = Some r →
                 Models.email r = email → j = i) as Huniq.
  { intros j r Hj He. destruct (decide (j = i)) as [|Hne]; [done|].
    rewrite lookup_insert_ne in Hj by done. by destruct (Hfree j r Hj). }
  assert (objects_get (email_is (Some email)) (<[i := u1]> (db w)) = Ok u1)
    as Hget1.
  { apply (objects_get_email_insert (db w) i u1); [done|].
    intros j r Hj He. by destruct (Hfree j r Hj). }
  exists (set_db (<[i := u1]> (db w)) w),
    (mkWorld (<[i := u2]> (<[i := u1]> (db w)))
       (<["user_email" := SStr email]> (session w))
       (mkMail "🔐 Tu código de verificación - NEX" first_name
          (Some (py_str (randint env'))) email [email] :: outbox w)),
    u1, u2.
  split.
  { unfold register. rewrite Hpost, Hfn, Hln, Hem, Hpw. cbn [py_not].
    rewrite (proj2 (String.eqb_neq _ _) Hfn0), (proj2 (String.eqb_neq _ _) Hln0),
      (proj2 (String.eqb_neq _ _) Hem0), (proj2 (String.eqb_neq _ _) Hpw0).
    cbn [orb default]. rewrite Hnew. fold u0.
    rewrite (AppUser_save_encoded make_password check_password Hsound
               _ u0 _ password (salt_view env)) by done.
    by rewrite Hsave. }
  split; [done|]. split; [done|]. split; [done|]. split; [done|].
  split; [apply (Hashers.check_accepts _ _ Hsound)|].
  split.
  { unfold login_view. rewrite Hpost', Hem', Hpw'. cbn [db set_db].
    rewrite Hget1. unfold AppUser_check_password.
    cbn [Models.password u1 set_id u0].
    rewrite (Hashers.check_accepts _ _ Hsound). cbn [negb].
    unfold generate_verification_code. fold u2.
    rewrite (AppUser_save_encoded make_password check_password Hsound
               _ u2 _ password (salt_view env)) by done.
    rewrite (Model_save_fetched _ u2 i) by done.
    by rewrite Hmail. }
  cbn [session db outbox].
  split; [done|]. split; [by rewrite lookup_insert_ne|].
  split.
  { apply (objects_get_email_insert _ i u2); [done|]. exact Huniq. }
  split; [done|]. by eexists.
Qed.

Lemma register_then_login_witness :
  ∃ w1 w2 u1 u2,
    register Hashers.plain_make_password Samples.register_luis Samples.env0
      Samples.anonymous = (Redirect "login", w1)
    ∧ session w1 = session Samples.anonymous
    ∧ objects_get (email_is (Some "luis@x.com")) (db w1) = Ok u1
    ∧ Models.first_name u1 = "Luis" ∧ Models.last_name u1 = "Mora"
    ∧ AppUser_check_password Hashers.plain_check_password u1 (Some "Clave9")
      = true
    ∧ login_view Hashers.plain_make_password Hashers.plain_check_password
        Samples.login_luis Samples.env0 w1
      = (Redirect "verify_code", w2)
    ∧ session w2
      = <["user_email" := SStr "luis@x.com"]> (session Samples.anonymous)
    ∧ session w2 !! "authenticated_user"
      = session Samples.anonymous !! "authenticated_user"
    ∧ objects_get (email_is (Some "luis@x.com")) (db w2) = Ok u2
    ∧ verification_code u2 = Some (py_str (randint Samples.env0))
    ∧ ∃ mail, outbox w2 = mail :: outbox Samples.anonymous
              ∧ body_code mail = Some (py_str (randint Samples.env0))
              ∧ recipient_list mail = ["luis@x.com"].
Proof.
  apply (register_then_login Hashers.plain_make_password
           Hashers.plain_check_password).
  - exact plain_sound.
  - reflexivity.
  - reflexivity.
  - discriminate.
  - reflexivity.
  - discriminate.
  - reflexivity.
  - discriminate.
  - reflexivity.
  - discriminate.
  - vm_compute. reflexivity.
  - reflexivity.
  - reflexivity.
  - reflexivity.
  - reflexivity.
Defined.

(** ** The verification code *)

Lemma py_str_six n :
  randint_returns 100000 999999 n →
  py_str n
  = String (digit_at n 5) (String (digit_at n 4) (String (digit_at n 3)
      (String (digit_at n 2) (String (digit_at n 1)
         (String (digit_at n 0) ""))))).
Proof.
  unfold randint_returns. intros Hn. destruct n as [|p|p]; try lia.
  unfold py_str, pretty, pretty_Z, pretty, pretty_positive, pretty, pretty_N.
  case_decide; [done|].
  do 6 (rewrite pretty_N_go_step by div_lia).
  assert ((N.pos p / 10 / 10 / 10 / 10 / 10 / 10)%N = 0%N) as -> by div_lia.
  rewrite pretty_N_go_0. unfold digit_at.
  repeat f_equal; div_lia.
Qed.

(** The first digit of a number between 100000 and 999999 is not 0. *)
Lemma digit_at_leading n :
  randint_returns 100000 999999 n → digit_at n 5 ≠ "0"%char.
Proof.
  unfold randint_returns, digit_at. intros Hn.
  assert (∃ d, Z.to_N ((n / 10 ^ 5) mod 10) = d
               ∧ (d = 1 ∨ d = 2 ∨ d = 3 ∨ d = 4 ∨ d = 5 ∨ d = 6 ∨ d = 7
                  ∨ d = 8 ∨ d = 9)%N) as (d & -> & Hd).
  { eexists. split; [done|]. div_lia. }
  by decompose [or] Hd; subst.
Qed.

(** Every character [digit_at] gives is a decimal digit. *)
Lemma digit_at_decimal n k :
  (48 ≤ Ascii.nat_of_ascii (digit_at n k) ≤ 57)%nat.
Proof.
  unfold digit_at, pretty_N_char.
  repeat case_match; vm_compute; lia.
Qed.

(** What [generate_verification_code] does to a fetched instance. *)
Lemma generate_verification_code_fetched make_password n salt db e u :
  objects_get (email_is (Some e)) db = Ok u →
  ∃ u' db',
    generate_verification_code make_password n salt u db = Ok (u', db')
    ∧ verification_code u' = Some (py_str n)
    ∧ id u' = id u ∧ email u' = e
    ∧ objects_get (email_is (Some e)) db' = Ok u'.
Proof.
  intros (i & r & Hur & Hid & Hem & Hi & Huniq)%objects_get_email_Ok.
  unfold generate_verification_code, AppUser_save.
  match goal with |- context [Model_save ?x db] => set (u' := x) end.
  assert (id u' = Some i ∧ email u' = e
          ∧ verification_code u' = Some (py_str n)) as (Hid' & Hem' & Hc).
  { unfold u'. by destruct (negb _). }
  exists u', (<[i := u']> db).
  assert (∀ j r', db !! j = Some r' → email r' = email u' → j = i) as Huniq'
    by (rewrite Hem'; exact Huniq).
  split; [by apply Model_save_fetched|].
  split; [done|]. split; [congruence|]. split; [done|].
  rewrite <-Hem'. by apply objects_get_email_insert.
Qed.

(** C4 (as the code has it).  For every value [n] that
    [random.randint(100000, 999999)] can return, the code issued is [str(n)]:
    six decimal digits, the first of which is not 0, and different draws give
    different codes; [generate_verification_code] stores it on the user's row
    and leaves it on the instance, and the mail [forgot_password] then sends
    to the user carries it. *)
Theorem generate_verification_code_issues make_password n salt db e u :
  randint_returns 100000 999999 n →
  objects_get (email_is (Some e)) db = Ok u →
  (py_str n
   = String (digit_at n 5) (String (digit_at n 4) (String (digit_at n 3)
       (String (digit_at n 2) (String (digit_at n 1)
          (String (digit_at n 0) ""))))))
  ∧ String.length (py_str n) = 6
  ∧ (∀ k, (48 ≤ nat_of_ascii (digit_at n k) ≤ 57)%nat)
  ∧ digit_at n 5 ≠ "0"%char
  ∧ (∀ m, py_str m = py_str n → m = n)
  ∧ (∃ u' db',
       generate_verification_code make_password n salt u db = Ok (u', db')
       ∧ verification_code u' = Some (py_str n)
       ∧ objects_get (email_is (Some e)) db' = Ok u')
  ∧ (∀ request env w,
       is_post request = true → POST request !! "email" = Some e →
       Views.db w = db → randint env = n → mail_delivered env = true →
       ∃ mail w',
         forgot_password make_password request env w
         = (Redirect "verify_reset_code", w')
         ∧ outbox w' = mail :: outbox w
         ∧ body_code mail = Some (py_str n)
         ∧ recipient_list mail = [e]).
Proof.
  intros Hn Hu.
  split; [by apply py_str_six|].
  split; [by rewrite py_str_six|].
  split; [intros k; apply digit_at_decimal|].
  split; [by apply digit_at_leading|].
  split; [intros m Hm; by apply (inj pretty)|].
  split.
  - destruct (generate_verification_code_fetched make_password n salt db e u
                Hu) as (u' & db' & ? & ? & _ & _ & ?).
    by exists u', db'.
  - intros request env w Hpost Hem <- <- Hmail.
    destruct (generate_verification_code_fetched make_password (randint env)
                (salt_save env) (Views.db w) e u Hu)
      as (u' & db' & Hgen & Hc & _ & He & _).
    unfold forgot_password. rewrite Hpost, Hem, Hu, Hgen, Hmail, Hc, He.
    by eexists _, _.
Qed.

Lemma generate_verification_code_issues_witness :
  py_str 482913 = "482913"
  ∧ ∃ u' db',
      generate_verification_code Hashers.plain_make_password 482913 "s2"
        Samples.ana Samples.db_ana = Ok (u', db')
      ∧ verification_code u' = Some (py_str 482913)
      ∧ objects_get (email_is (Some "ana@x.com")) db' = Ok u'.
Proof.
  destruct (generate_verification_code_issues Hashers.plain_make_password
              482913 "s2" Samples.db_ana "ana@x.com" Samples.ana)
    as (H & _ & _ & _ & _ & Hgen & _).
  - unfold randint_returns. lia.
  - vm_compute. reflexivity.
  - split; [exact H | exact Hgen].
Defined.

(** C4 (as stated) fails: no draw gives the code 000000, which lies in the
    range 000000–999999. *)
Lemma code_000000_never_issued :
  ¬ ∃ n, randint_returns 100000 999999 n ∧ py_str n = "000000".
Proof.
  intros (n & Hn & Hs). rewrite (py_str_six n Hn) in Hs.
  injection Hs as H5 _. by apply (digit_at_leading n Hn).
Qed.

(** ** The stored password *)

(** X23.  What [AppUser.save] does to the password field, for a hasher whose
    encodings start with [pbkdf2_sha256$]: a value that lacks the prefix is
    replaced by its encoding, a value that has it is written unchanged, and
    in both cases the row written holds a value with the prefix.  [register]
    encodes the raw password itself before it saves, so the value it stores
    is [make_password] of the raw password, whatever the raw password looks
    like. *)
Theorem AppUser_save_password_encoded make_password check_password :
  Hashers.Sound make_password check_password →
  (∀ salt u db u' db',
     AppUser_save make_password salt u db = Ok (u', db') →
     String.prefix "pbkdf2_sha256$" (password u') = true
     ∧ (∃ i, id u' = Some i ∧ db' !! i = Some u')
     ∧ (String.prefix "pbkdf2_sha256$" (password u) = false →
        password u' = make_password (Some (password u)) salt)
     ∧ (String.prefix "pbkdf2_sha256$" (password u) = true →
        password u' = password u))
  ∧ (∀ request env w w',
       register make_password request env w = (Redirect "login", w') →
       ∃ raw i u',
         POST request !! "password" = Some raw
         ∧ db w !! i = None ∧ db w' = <[i := u']> (db w)
         ∧ password u' = make_password (Some raw) (salt_view env)).
Proof.
  intros Hsound. split.
  - intros salt u db u' db' Hsave. unfold AppUser_save, Model_save in Hsave.
    destruct (email_held_by_other _ db); [done|].
    injection Hsave as <- <-.
    split; [|split; [eexists; split; [reflexivity|apply lookup_insert_eq]|]].
    + destruct (String.prefix "pbkdf2_sha256$" (password u)) eqn:Hp; simpl;
        [done|apply (Hashers.encoded_prefix _ _ Hsound)].
    + by split; intros ->.
  - intros request env w w' H. unfold register in H.
    destruct (is_post request); [|done].
    destruct (py_not (POST request !! "first_name")
              || py_not (POST request !! "last_name")
              || py_not (POST request !! "email")
              || py_not (POST request !! "password")) eqn:Hnot; [done|].
    destruct (objects_exists _ _); [done|].
    rewrite !orb_false_iff in Hnot. destruct Hnot as (_ & Hpw).
    destruct (POST request !! "password") as [raw|] eqn:Hraw; [|done].
    rewrite (AppUser_save_encoded make_password check_password Hsound
               _ _ _ raw (salt_view env)) in H by done.
    unfold Model_save in H. destruct (email_held_by_other _ _); [done|].
    simpl in H. simplify_eq.
    eexists raw, _, _. split; [done|].
    split; [apply not_elem_of_dom, is_fresh|]. done.
Qed.

Lemma AppUser_save_password_encoded_witness :
  AppUser_save Hashers.plain_make_password "s2" Samples.eli Samples.db_ana
  = Ok (Samples.eli_saved, <[2 := Samples.eli_saved]> Samples.db_ana)
  ∧ String.prefix "pbkdf2_sha256$" (password Samples.eli_saved) = true
  ∧ password Samples.eli_saved
    = Hashers.plain_make_password (Some (password Samples.eli)) "s2".
Proof.
  assert (AppUser_save Hashers.plain_make_password "s2" Samples.eli
            Samples.db_ana
          = Ok (Samples.eli_saved, <[2 := Samples.eli_saved]> Samples.db_ana))
    as Hsave by (vm_compute; reflexivity).
  split; [exact Hsave|].
  destruct (AppUser_save_password_encoded Hashers.plain_make_password
              Hashers.plain_check_password plain_sound) as [H _].
  destruct (H "s2" Samples.eli Samples.db_ana Samples.eli_saved _ Hsave)
    as (Hp & _ & Hraw & _).
  split; [exact Hp|]. apply Hraw. reflexivity.
Defined.

(** C7 (the code breaks it).  The field is documented as stored encrypted
    and [AppUser.save] as hashing the password before it saves, but the test
    of [save] is a test of the first characters only: the raw password
    [pbkdf2_sha256$hunter2], assigned to the field of a new instance, is
    written to the table as it came in, and what is stored is the encoding of
    no password. *)
Lemma AppUser_save_keeps_raw_password :
  AppUser_save Hashers.plain_make_password "s2" Samples.eva Samples.db_ana
  = Ok (Samples.eva_saved, <[2 := Samples.eva_saved]> Samples.db_ana)
  ∧ password Samples.eva_saved = password Samples.eva
  ∧ password Samples.eva_saved = "pbkdf2_sha256$hunter2"
  ∧ ¬ ∃ raw salt,
        password Samples.eva_saved = Hashers.plain_make_password raw salt.
Proof.
  split; [vm_compute; reflexivity|]. split; [reflexivity|].
  split; [reflexivity|]. intros (raw & salt & H). by destruct raw.
Qed.

(** ** Reuse of a login code *)

(** C5 (the login flow breaks it).  A POST to [verify_code] that completes
    the login does not use up the code: the same request, sent again in the
    world the first one left, completes the login again. *)
Theorem verify_code_accepts_code_again request w w' :
  verify_code request w = (Redirect "home", w') →
  verify_code request w' = (Redirect "home", w').
Proof.
  unfold verify_code. intros H.
  destruct (truthy (session w !! "user_email")) eqn:Hs; [|done].
  destruct (is_post request) eqn:Hpost; [|done]. simpl in H.
  destruct (objects_get _ (db w)) as [user|[]] eqn:Hget; simplify_eq.
  cbn [session db set_session].
  rewrite lookup_insert_ne, Hs, Hget by done. simpl.
  by rewrite insert_insert_eq.
Qed.

Lemma verify_code_accepts_code_again_witness :
  verify_code (Samples.post [("code", "482913")])
    (set_session (<["authenticated_user" := SStr "ana@x.com"]>
                    (session Samples.awaiting_code)) Samples.awaiting_code)
  = (Redirect "home",
     set_session (<["authenticated_user" := SStr "ana@x.com"]>
                    (session Samples.awaiting_code)) Samples.awaiting_code).
Proof.
  apply (verify_code_accepts_code_again _ Samples.awaiting_code).
  vm_compute. reflexivity.
Defined.

(** ** The reset keys of the session *)

Section ResetKeys.

Implicit Types s : gmap string SVal.

Lemma reset_keys_empty : reset_keys_consistent ∅.
Proof. split; intros v; by rewrite lookup_empty. Qed.

Lemma reset_keys_insert_other k v s :
  k ≠ "reset_email" → k ≠ "verified_reset" →
  reset_keys_consistent s → reset_keys_consistent (<[k := v]> s).
Proof.
  intros ?? [He Hv]. split; intros v'; rewrite !lookup_insert_ne by done; auto.
Qed.

Lemma reset_keys_insert_email e s :
  reset_keys_consistent s →
  reset_keys_consistent (<["reset_email" := SStr e]> s).
Proof.
  intros [He Hv]. split; intros v'.
  - rewrite lookup_insert_eq. intros [= <-]. by eexists.
  - rewrite lookup_insert_ne, lookup_insert_eq by done.
    intros [-> _]%Hv. by split.
Qed.

Lemma reset_keys_insert_verified s :
  truthy (s !! "reset_email") = true →
  reset_keys_consistent s →
  reset_keys_consistent (<["verified_reset" := SBool true]> s).
Proof.
  intros Ht [He Hv]. split; intros v'.
  - rewrite lookup_insert_ne by done. auto.
  - rewrite lookup_insert_eq, lookup_insert_ne by done. intros [= <-].
    split; [done|]. by destruct (s !! "reset_email").
Qed.

Lemma reset_keys_delete s :
  reset_keys_consistent s →
  reset_keys_consistent (delete "verified_reset" (delete "reset_email" s)).
Proof.
  intros _. split; intros v'.
  - by rewrite lookup_delete_ne, lookup_delete_eq.
  - by rewrite lookup_delete_eq.
Qed.

End ResetKeys.

Section Requests.

Variable make_password : option string → string → string.
Variable check_password : option string → string → bool.
Variables Modelo Tokenizer : Type.
Variable predict : Modelo → Tokenizer → string → Z.
Variable modelo_cargado : option Modelo.
Variable tokenizer_cargado : option Tokenizer.

(** Every view keeps the reset keys consistent. *)
Lemma call_reset_keys v request env w :
  reset_keys_consistent (session w) →
  reset_keys_consistent
    (session (call make_password check_password Modelo Tokenizer predict
                modelo_cargado tokenizer_cargado v request env w).2).
Proof.
  intros Hinv.
  destruct v; unfold call, welcome, login_view, register, verify_code,
    forgot_password, verify_reset_code, reset_password, logout_view, home,
    historia_clinica, hacer_prediccion_view, session_del;
    repeat case_match; simplify_eq; cbn [snd session set_session set_db set_outbox];
    auto using reset_keys_empty, reset_keys_insert_other,
      reset_keys_insert_email, reset_keys_delete.
  apply reset_keys_insert_verified; [|done].
  by destruct (truthy (session w !! "reset_email")).
Qed.

Lemma reachable_reset_keys db0 w :
  reachable make_password check_password Modelo Tokenizer predict
    modelo_cargado tokenizer_cargado db0 w →
  reset_keys_consistent (session w).
Proof.
  induction 1 as [|w w' _ IH Hstep]; [apply reset_keys_empty|].
  destruct Hstep as [path v request env _|db' outbox']; [|done].
  by apply call_reset_keys.
Qed.

End Requests.

(** X24.  In every world a browser reaches from a fresh session, by any
    sequence of requests to the views of the site, the key [verified_reset]
    is in the session only with the value [True] and only next to the key
    [reset_email], which holds a text.  (The text need not be the address
    whose code was checked, and it can be empty when a row of the table has
    an empty address.) *)
Theorem verified_reset_needs_reset_email make_password check_password
    (Modelo Tokenizer : Type) (predict : Modelo → Tokenizer → string → Z)
    modelo_cargado tokenizer_cargado db0 w :
  reachable make_password check_password Modelo Tokenizer predict
    modelo_cargado tokenizer_cargado db0 w →
  ∀ v, session w !! "verified_reset" = Some v →
       v = SBool true ∧ ∃ e, session w !! "reset_email" = Some (SStr e).
Proof.
  intros [He Hv]%reachable_reset_keys v Hlook.
  destruct (Hv v Hlook) as [-> [v' Hv']]. split; [done|].
  destruct (He v' Hv') as [e ->]. by exists e.
Qed.

Lemma verified_reset_needs_reset_email_witness :
  session Samples.after_verify_reset_code !! "verified_reset"
  = Some (SBool true)
  ∧ ∃ e, session Samples.after_verify_reset_code !! "reset_email"
         = Some (SStr e).
Proof.
  assert (reachable Hashers.plain_make_password Hashers.plain_check_password
            unit unit (λ _ _ _, 0%Z) None None Samples.db_ana
            Samples.after_verify_reset_code) as Hreach.
  { eapply reachable_step; [eapply reachable_step; [apply reachable_fresh|]|].
    - exact (step_request _ _ _ _ _ _ _ _ "forgot_password/" v_forgot_password
               (Samples.post [("email", "ana@x.com")]) Samples.env0 eq_refl).
    - exact (step_request _ _ _ _ _ _ _ _ "verify_reset_code/"
               v_verify_reset_code (Samples.post [("code", "482913")])
               Samples.env0 eq_refl). }
  assert (session Samples.after_verify_reset_code !! "verified_reset"
          = Some (SBool true)) as Hv by (vm_compute; reflexivity).
  split; [exact Hv|].
  exact (proj2 (verified_reset_needs_reset_email _ _ _ _ _ _ _ _ _ Hreach
                  _ Hv)).
Defined.

(** [forgot_password] never writes [verified_reset]: a flag set for one
    address stays in the session when a reset is requested for another. *)
Lemma forgot_password_keeps_verified_reset make_password request env w :
  session (forgot_password make_password request env w).2 !! "verified_reset"
  = session w !! "verified_reset".
Proof.
  unfold forgot_password. repeat case_match; simplify_eq;
    cbn [snd session set_session set_db set_outbox]; try done.
  by rewrite lookup_insert_ne.
Qed.

(** C8 (the code breaks it).  From a fresh session a browser reaches, by
    three requests, a session in which [verified_reset] is [True] next to a
    [reset_email] that is not the address whose code was checked: the code
    checked was Ana's, the address is Luis's, whose code (271828, stored on
    his row) was never submitted.  [reset_password] takes that session as
    authorized and sets Luis's password. *)
Theorem verified_reset_beside_unchecked_address :
  reachable Hashers.plain_make_password Hashers.plain_check_password
    unit unit (λ _ _ _, 0%Z) None None Samples.db_two
    Samples.two_after_forgot_luis
  ∧ session Samples.two_after_verify_ana !! "reset_email"
    = Some (SStr "ana@x.com")
  ∧ session Samples.two_after_verify_ana !! "verified_reset"
    = Some (SBool true)
  ∧ session Samples.two_after_forgot_luis !! "reset_email"
    = Some (SStr "luis@x.com")
  ∧ session Samples.two_after_forgot_luis !! "verified_reset"
    = Some (SBool true)
  ∧ verification_code
      <$> (Views.db Samples.two_after_forgot_luis !! 2) = Some (Some "271828")
  ∧ (reset_password Hashers.plain_make_password
       (Samples.post [("password", "Intruso1")]) Samples.env0
       Samples.two_after_forgot_luis).1 = Redirect "login"
  ∧ Models.password
      <$> (Views.db
             (reset_password Hashers.plain_make_password
                (Samples.post [("password", "Intruso1")]) Samples.env0
                Samples.two_after_forgot_luis).2 !! 2)
    = Some (Hashers.plain_make_password (Some "Intruso1") "s1").
Proof.
  split.
  { eapply reachable_step;
      [eapply reachable_step;
         [eapply reachable_step; [apply reachable_fresh|]|]|].
    - exact (step_request _ _ _ _ _ _ _ _ "forgot_password/" v_forgot_password
               (Samples.post [("email", "ana@x.com")]) Samples.env0 eq_refl).
    - exact (step_request _ _ _ _ _ _ _ _ "verify_reset_code/"
               v_verify_reset_code (Samples.post [("code", "482913")])
               Samples.env0 eq_refl).
    - exact (step_request _ _ _ _ _ _ _ _ "forgot_password/" v_forgot_password
               (Samples.post [("email", "luis@x.com")]) Samples.env_luis
               eq_refl). }
  repeat split; vm_compute; reflexivity.
Qed.

(** * More of the views *)

(** ** Queries by e-mail and code *)

Section Queries.

Implicit Types (u r : AppUser).

Lemma objects_exists_true (P : AppUser → bool) (t : gmap nat AppUser) i r :
  t !! i = Some r → P r = true → objects_exists P t = true.
Proof.
  intros Hi HP. destruct (objects_exists P t) eqn:E; [done|].
  rewrite (proj1 (objects_exists_false P t) E i r Hi) in HP. done.
Qed.

(** No row holds the submitted e-mail (or none was submitted). *)
Lemma objects_get_email_unknown (t : gmap nat AppUser) (q : option string) :
  (∀ i r, t !! i = Some r → Some (email r) ≠ q) →
  objects_get (email_is q) t = Raise DoesNotExist.
Proof.
  intros Hnone. apply objects_get_DoesNotExist. intros i r Hi.
  destruct q as [e|]; [|done]. simpl.
  apply String.eqb_neq. intros He. apply (Hnone i r Hi). by rewrite He.
Qed.

(** The query of [verify_code] and [verify_reset_code] for the fetched
    user's own code. *)
Lemma objects_get_email_code_own (t : gmap nat AppUser) e u :
  objects_get (email_is (Some e)) t = Ok u →
  objects_get (λ u', email_is (Some e) u' && code_is (verification_code u) u') t
  = Ok u.
Proof.
  intros (i & r & -> & Hi & HP & Huniq)%objects_get_Ok.
  apply objects_get_Ok. exists i, r. split; [done|]. split; [done|].
  split.
  - rewrite HP. simpl. unfold code_is. by apply bool_decide_eq_true.
  - intros j r' Hj [HP' _]%andb_true_iff. eauto.
Qed.

(** The same query for another code. *)
Lemma objects_get_email_code_other (t : gmap nat AppUser) e u c :
  objects_get (email_is (Some e)) t = Ok u →
  c ≠ verification_code u →
  objects_get (λ u', email_is (Some e) u' && code_is c u') t
  = Raise DoesNotExist.
Proof.
  intros (i & r & -> & Hi & HP & Huniq)%objects_get_Ok Hc.
  apply objects_get_DoesNotExist. intros j r' Hj.
  apply andb_false_iff.
  destruct (email_is (Some e) r') eqn:HP'; [right|by left].
  assert (j = i) as -> by eauto. simplify_eq.
  unfold code_is. apply bool_decide_eq_false. simpl in Hc. congruence.
Qed.

(** What a match of that query tells about the table. *)
Lemma objects_get_email_code_Ok (t : gmap nat AppUser) (q c : option string) u :
  objects_get (λ u', email_is q u' && code_is c u') t = Ok u →
  ∃ i r, u = set_id i r ∧ t !! i = Some r ∧ Some (email r) = q
         ∧ verification_code r = c.
Proof.
  intros (i & r & -> & Hi & [HP Hc]%andb_true_iff & _)%objects_get_Ok.
  exists i, r. split; [done|]. split; [done|].
  unfold code_is in Hc. apply bool_decide_eq_true in Hc.
  split; [|done]. destruct q as [e|]; [|done].
  apply email_is_Some in HP. by rewrite HP.
Qed.

Lemma truthy_SStr e : e ≠ "" → truthy (Some (SStr e)) = true.
Proof. intros He. simpl. by destruct (String.eqb_spec e ""). Qed.

End Queries.

(** ** Refusals *)

(** X1.  A registration POST with all four fields filled in and an e-mail
    that a row of the table already holds returns the form with the error
    "El correo ya está en uso" and leaves the world as it was: no second row
    for the address is created. *)
Theorem register_email_in_use make_password request env w i r :
  is_post request = true →
  py_not (POST request !! "first_name") = false →
  py_not (POST request !! "last_name") = false →
  py_not (POST request !! "password") = false →
  Views.db w !! i = Some r →
  Models.email r ≠ "" →
  POST request !! "email" = Some (Models.email r) →
  register make_password request env w
  = (Render "register.html" [("error", Some "El correo ya está en uso")], w).
Proof.
  intros Hpost Hfn Hln Hpw Hi Hne Hem. unfold register.
  rewrite Hpost, Hfn, Hln, Hpw, Hem. cbn [py_not].
  rewrite (proj2 (String.eqb_neq _ _) Hne). cbn [orb].
  rewrite (objects_exists_true _ _ i r Hi); [done|].
  by apply email_is_Some.
Qed.

Lemma register_email_in_use_witness :
  register Hashers.plain_make_password
    (Samples.post [("first_name", "Ana"); ("last_name", "Otra");
                   ("email", "ana@x.com"); ("password", "Clave9")])
    Samples.env0 Samples.anonymous
  = (Render "register.html" [("error", Some "El correo ya está en uso")],
     Samples.anonymous).
Proof.
  apply (register_email_in_use _ _ _ _ 1 Samples.ana).
  - reflexivity.
  - vm_compute. reflexivity.
  - vm_compute. reflexivity.
  - vm_compute. reflexivity.
  - vm_compute. reflexivity.
  - discriminate.
  - vm_compute. reflexivity.
Defined.

(** X2.  A POST to [login_view] or to [forgot_password] whose e-mail no row
    of the table holds, or that carries no e-mail at all, returns the form
    with the error "Correo no registrado." and leaves the world as it was: no
    code is issued and no mail is sent. *)
Theorem unknown_email_refused make_password check_password request env w :
  is_post request = true →
  (∀ i r, Views.db w !! i = Some r →
          Some (Models.email r) ≠ POST request !! "email") →
  login_view make_password check_password request env w
  = (Render "login.html" [("error", Some "Correo no registrado.")], w)
  ∧ forgot_password make_password request env w
    = (Render "forgot_password.html"
         [("error", Some "Correo no registrado.")], w).
Proof.
  intros Hpost Hnone. unfold login_view, forgot_password.
  by rewrite Hpost, (objects_get_email_unknown _ _ Hnone).
Qed.

Lemma unknown_email_refused_witness :
  login_view Hashers.plain_make_password Hashers.plain_check_password
    (Samples.post [("password", "Secret1")]) Samples.env0 Samples.anonymous
  = (Render "login.html" [("error", Some "Correo no registrado.")],
     Samples.anonymous)
  ∧ forgot_password Hashers.plain_make_password
      (Samples.post [("password", "Secret1")]) Samples.env0 Samples.anonymous
    = (Render "forgot_password.html"
         [("error", Some "Correo no registrado.")], Samples.anonymous).
Proof.
  apply unknown_email_refused; [reflexivity|].
  intros i r Hi. assert (POST (Samples.post [("password", "Secret1")])
    !! "email" = None) as -> by (vm_compute; reflexivity). done.
Defined.

(** X3.  A login POST for a registered user with a password other than the
    one the stored value encodes returns the form with the error "Contraseña
    incorrecta." and leaves the world as it was: no code is issued, no mail
    is sent and [user_email] is not set. *)
Theorem login_wrong_password make_password check_password request env w
    e u raw_password salt submitted :
  Hashers.Sound make_password check_password →
  is_post request = true →
  POST request !! "email" = Some e →
  objects_get (email_is (Some e)) (Views.db w) = Ok u →
  Models.password u = make_password (Some raw_password) salt →
  POST request !! "password" = Some submitted →
  submitted ≠ raw_password →
  login_view make_password check_password request env w
  = (Render "login.html" [("error", Some "Contraseña incorrecta.")], w).
Proof.
  intros Hsound Hpost Hem Hu Hp Hpw Hne. unfold login_view.
  rewrite Hpost, Hem, Hu, Hpw. unfold AppUser_check_password.
  rewrite Hp, (Hashers.check_rejects _ _ Hsound) by done. done.
Qed.

Lemma login_wrong_password_witness :
  login_view Hashers.plain_make_password Hashers.plain_check_password
    (Samples.post [("email", "ana@x.com"); ("password", "secret1")])
    Samples.env0 Samples.anonymous
  = (Render "login.html" [("error", Some "Contraseña incorrecta.")],
     Samples.anonymous).
Proof.
  apply (login_wrong_password _ _ _ _ _ "ana@x.com" Samples.ana "Secret1" "s"
           "secret1").
  - exact plain_sound.
  - reflexivity.
  - vm_compute. reflexivity.
  - vm_compute. reflexivity.
  - reflexivity.
  - vm_compute. reflexivity.
  - discriminate.
Defined.

(** ** Codes that match *)

(** X4.  In a session that awaits the login code of a registered user, a
    POST to [verify_code] whose code equals the stored one sets
    [authenticated_user] to the user's address and redirects to [home], after
    which [home] and [historia_clinica] render their pages.  The comparison is
    on what was submitted: when the row holds no code, a POST without a
    [code] field matches. *)
Theorem verify_code_right_code request request' w e u :
  session w !! "user_email" = Some (SStr e) →
  e ≠ "" →
  objects_get (email_is (Some e)) (Views.db w) = Ok u →
  is_post request = true →
  POST request !! "code" = verification_code u →
  ∃ w',
    verify_code request w = (Redirect "home", w')
    ∧ w' = set_session (<["authenticated_user" := SStr e]> (session w)) w
    ∧ home request' w' = (Render "home.html" [], w')
    ∧ historia_clinica request' w' = (Render "historia clinica.html" [], w').
Proof.
  intros Hs He Hu Hpost Hcode. eexists. split; [|split; [reflexivity|]].
  - unfold verify_code. rewrite Hs, Hpost, (truthy_SStr e He), Hcode.
    cbn [negb fmap option_fmap option_map to_python].
    rewrite (objects_get_email_code_own _ _ _ Hu).
    by apply objects_get_email_Ok in Hu as (i & r & -> & _ & <- & _).
  - unfold home, historia_clinica. cbn [session set_session].
    by rewrite lookup_insert_eq, (truthy_SStr e He).
Qed.

Lemma verify_code_right_code_witness :
  ∃ w',
    verify_code (Samples.post []) Samples.awaiting_code_none
    = (Redirect "home", w')
    ∧ w' = set_session (<["authenticated_user" := SStr "ana@x.com"]>
                          (session Samples.awaiting_code_none))
             Samples.awaiting_code_none
    ∧ home (Samples.get []) w' = (Render "home.html" [], w')
    ∧ historia_clinica (Samples.get []) w'
      = (Render "historia clinica.html" [], w').
Proof.
  apply (verify_code_right_code _ _ _ "ana@x.com" Samples.ana_without_code).
  - reflexivity.
  - discriminate.
  - vm_compute. reflexivity.
  - reflexivity.
  - vm_compute. reflexivity.
Defined.

(** X5.  In a session that awaits the reset code of a registered user, a
    POST to [verify_reset_code] whose code equals the stored one sets
    [verified_reset] to [True] and redirects to [reset_password]; with any
    other code it returns the form with the error "Código incorrecto." and
    leaves the world as it was. *)
Theorem verify_reset_code_by_code request w e u :
  session w !! "reset_email" = Some (SStr e) →
  e ≠ "" →
  objects_get (email_is (Some e)) (Views.db w) = Ok u →
  is_post request = true →
  (POST request !! "code" = verification_code u →
   verify_reset_code request w
   = (Redirect "reset_password",
      set_session (<["verified_reset" := SBool true]> (session w)) w))
  ∧ (POST request !! "code" ≠ verification_code u →
     verify_reset_code request w
     = (Render "verify_reset_code.html"
          [("error", Some "Código incorrecto.")], w)).
Proof.
  intros Hs He Hu Hpost. unfold verify_reset_code.
  rewrite Hs, Hpost, (truthy_SStr e He).
  cbn [negb fmap option_fmap option_map to_python].
  split; intros Hcode.
  - by rewrite Hcode, (objects_get_email_code_own _ _ _ Hu).
  - by rewrite (objects_get_email_code_other _ _ _ _ Hu Hcode).
Qed.

Lemma verify_reset_code_by_code_witness :
  verify_reset_code (Samples.post [("code", "482913")])
    Samples.awaiting_reset_code
  = (Redirect "reset_password",
     set_session (<["verified_reset" := SBool true]>
                    (session Samples.awaiting_reset_code))
       Samples.awaiting_reset_code)
  ∧ verify_reset_code (Samples.post [("code", "482914")])
      Samples.awaiting_reset_code
    = (Render "verify_reset_code.html" [("error", Some "Código incorrecto.")],
       Samples.awaiting_reset_code).
Proof.
  split.
  - apply (verify_reset_code_by_code _ _ "ana@x.com" Samples.ana);
      [reflexivity|discriminate|vm_compute; reflexivity|reflexivity|].
    vm_compute. reflexivity.
  - apply (verify_reset_code_by_code _ _ "ana@x.com" Samples.ana);
      [reflexivity|discriminate|vm_compute; reflexivity|reflexivity|].
    vm_compute. discriminate.
Defined.

(** ** Logout and requests that are not POSTs *)

(** X6.  [logout_view] empties the session and touches nothing else; in the
    world it leaves, every guarded view redirects: [home], [historia_clinica]
    and [verify_code] to [login], [verify_reset_code] and [reset_password] to
    [forgot_password]. *)
Theorem logout_closes_every_flow make_password request request' env w :
  logout_view request w
  = (Redirect "login", mkWorld (Views.db w) ∅ (outbox w))
  ∧ home request' (logout_view request w).2
    = (Redirect "login", (logout_view request w).2)
  ∧ historia_clinica request' (logout_view request w).2
    = (Redirect "login", (logout_view request w).2)
  ∧ verify_code request' (logout_view request w).2
    = (Redirect "login", (logout_view request w).2)
  ∧ verify_reset_code request' (logout_view request w).2
    = (Redirect "forgot_password", (logout_view request w).2)
  ∧ reset_password make_password request' env (logout_view request w).2
    = (Redirect "forgot_password", (logout_view request w).2).
Proof.
  unfold logout_view, home, historia_clinica, verify_code, verify_reset_code,
    reset_password. cbn [snd session set_session].
  by rewrite !lookup_empty.
Qed.

(** X7.  A request whose method is not POST changes nothing, whatever view
    it reaches, unless the view is [logout_view]. *)
Theorem non_post_changes_nothing make_password check_password
    (Modelo Tokenizer : Type) (predict : Modelo → Tokenizer → string → Z)
    modelo_cargado tokenizer_cargado v request env w :
  is_post request = false →
  v ≠ v_logout_view →
  (call make_password check_password Modelo Tokenizer predict modelo_cargado
     tokenizer_cargado v request env w).2 = w.
Proof.
  intros Hpost Hv.
  destruct v; try done; unfold call, welcome, login_view, register,
    verify_code, forgot_password, verify_reset_code, reset_password, home,
    historia_clinica, hacer_prediccion_view; rewrite ?Hpost;
    repeat case_match; done.
Qed.

Lemma non_post_changes_nothing_witness :
  (call Hashers.plain_make_password Hashers.plain_check_password unit unit
     (λ _ _ _, 0%Z) None None v_reset_password
     (Samples.get [("password", "Secret2")]) Samples.env0
     Samples.reset_authorized).2
  = Samples.reset_authorized.
Proof.
  apply non_post_changes_nothing; [reflexivity|discriminate].
Defined.

(** ** What a successful save has done *)

Lemma AppUser_save_Ok make_password salt u (t : gmap nat AppUser) u' t' :
  AppUser_save make_password salt u t = Ok (u', t') →
  ∃ j, id u' = Some j ∧ t' = <[j := u']> t
       ∧ email u' = email u ∧ first_name u' = first_name u
       ∧ last_name u' = last_name u
       ∧ verification_code u' = verification_code u
       ∧ (∀ k r, t !! k = Some r → email r = email u → Some k = id u)
       ∧ match id u with
         | Some j0 => j = j0
         | None => t !! j = None
         end.
Proof.
  unfold AppUser_save, Model_save. intros H.
  destruct (email_held_by_other _ t) eqn:Hheld; [done|].
  injection H as <- <-.
  pose proof (proj1 (email_held_by_other_false _ _) Hheld) as Hfree.
  eexists. split; [reflexivity|]. split; [reflexivity|].
  destruct (negb (String.prefix "pbkdf2_sha256$" (password u)));
    cbn [set_id set_password email first_name last_name verification_code id]
      in *.
  all: repeat (split; [done|]).
  all: destruct (id u); [done|apply not_elem_of_dom, is_fresh].
Qed.

(** A fetched instance is the row under its key. *)
Lemma objects_get_row (P : AppUser → bool) (t : gmap nat AppUser) u :
  objects_get P t = Ok u →
  ∃ i r, u = set_id i r ∧ t !! i = Some r ∧ P r = true.
Proof.
  intros (i & r & ? & ? & ? & _)%objects_get_Ok. by exists i, r.
Qed.

(** ** Who writes the keys of the session *)

Section SessionKeys.

Variable make_password : option string → string → string.
Variable check_password : option string → string → bool.
Variables Modelo Tokenizer : Type.
Variable predict : Modelo → Tokenizer → string → Z.
Variable modelo_cargado : option Modelo.
Variable tokenizer_cargado : option Tokenizer.

(** X8.  Whenever a request leaves a value under [authenticated_user] that
    was not there before, the view was [verify_code], the request a POST, and
    the table held a row with the address of [user_email] and the submitted
    code; the value is that row's address.  No other view, and no other
    outcome of [verify_code], logs a user in. *)
Theorem authenticated_user_needs_code v request env w x :
  session (call make_password check_password Modelo Tokenizer predict
             modelo_cargado tokenizer_cargado v request env w).2
    !! "authenticated_user" = Some x →
  session w !! "authenticated_user" ≠ Some x →
  v = v_verify_code ∧ is_post request = true
  ∧ ∃ i r, Views.db w !! i = Some r
           ∧ Some (Models.email r) = to_python <$> session w !! "user_email"
           ∧ verification_code r = POST request !! "code"
           ∧ x = SStr (Models.email r).
Proof.
  intros Hafter Hbefore.
  destruct v; unfold call, welcome, login_view, register, verify_code,
    forgot_password, verify_reset_code, reset_password, logout_view, home,
    historia_clinica, hacer_prediccion_view, session_del in Hafter;
    repeat case_match; simplify_eq;
    cbn [snd session set_session set_db set_outbox] in Hafter;
    rewrite ?lookup_insert_ne, ?lookup_delete_ne, ?lookup_empty in Hafter
      by done; try done.
  rewrite lookup_insert_eq in Hafter. simplify_eq.
  split; [done|]. split; [done|].
  match goal with
  | H : objects_get _ _ = Ok _ |- _ =>
      apply objects_get_email_code_Ok in H as (i & r & -> & Hi & He & Hc)
  end.
  by exists i, r.
Qed.

(** X9.  Whenever a request leaves a value under [verified_reset] that was
    not there before, the view was [verify_reset_code], the request a POST,
    the value is [True], and the table held a row with the address of
    [reset_email] and the submitted code. *)
Theorem verified_reset_needs_code v request env w x :
  session (call make_password check_password Modelo Tokenizer predict
             modelo_cargado tokenizer_cargado v request env w).2
    !! "verified_reset" = Some x →
  session w !! "verified_reset" ≠ Some x →
  v = v_verify_reset_code ∧ is_post request = true ∧ x = SBool true
  ∧ ∃ i r, Views.db w !! i = Some r
           ∧ Some (Models.email r) = to_python <$> session w !! "reset_email"
           ∧ verification_code r = POST request !! "code".
Proof.
  intros Hafter Hbefore.
  destruct v; unfold call, welcome, login_view, register, verify_code,
    forgot_password, verify_reset_code, reset_password, logout_view, home,
    historia_clinica, hacer_prediccion_view, session_del in Hafter;
    repeat case_match; simplify_eq;
    cbn [snd session set_session set_db set_outbox] in Hafter;
    rewrite ?lookup_delete_eq, ?lookup_insert_ne, ?lookup_delete_ne,
      ?lookup_empty in Hafter by done; try done.
  rewrite lookup_insert_eq in Hafter. simplify_eq.
  split; [done|]. split; [done|]. split; [done|].
  match goal with
  | H : objects_get _ _ = Ok _ |- _ =>
      apply objects_get_email_code_Ok in H as (i & r & -> & Hi & He & Hc)
  end.
  by exists i, r.
Qed.

(** X10.  Whenever a request leaves a value under [user_email] that was not
    there before, the view was [login_view], the request a POST whose mail
    was delivered, and the table held a row with the submitted address whose
    stored password [check_password] accepted for the submitted password; the
    value is that row's address. *)
Theorem user_email_needs_password v request env w x :
  session (call make_password check_password Modelo Tokenizer predict
             modelo_cargado tokenizer_cargado v request env w).2
    !! "user_email" = Some x →
  session w !! "user_email" ≠ Some x →
  v = v_login_view ∧ is_post request = true ∧ mail_delivered env = true
  ∧ ∃ i r, Views.db w !! i = Some r
           ∧ Some (Models.email r) = POST request !! "email"
           ∧ check_password (POST request !! "password") (Models.password r)
             = true
           ∧ x = SStr (Models.email r).
Proof.
  intros Hafter Hbefore.
  destruct v; unfold call, welcome, login_view, register, verify_code,
    forgot_password, verify_reset_code, reset_password, logout_view, home,
    historia_clinica, hacer_prediccion_view, session_del in Hafter;
    repeat case_match; simplify_eq;
    cbn [snd session set_session set_db set_outbox] in Hafter;
    rewrite ?lookup_insert_ne, ?lookup_delete_ne, ?lookup_empty in Hafter
      by done; try done.
  rewrite lookup_insert_eq in Hafter. simplify_eq.
  split; [done|]. split; [done|]. split; [done|].
  match goal with
  | H : objects_get _ _ = Ok _ |- _ =>
      apply objects_get_row in H as (i & r & -> & Hi & He)
  end.
  match goal with
  | H : generate_verification_code _ _ _ _ _ = Ok _ |- _ =>
      apply AppUser_save_Ok in H as (j & _ & _ & Hem & _)
  end.
  exists i, r. split; [done|].
  destruct (POST request !! "email") as [e|] eqn:Hq; [|done].
  apply email_is_Some in He. split; [by rewrite He|].
  split; [|by rewrite Hem].
  match goal with
  | H : negb (AppUser_check_password _ _ _) = false |- _ =>
      apply negb_false_iff in H; exact H
  end.
Qed.

End SessionKeys.

Lemma authenticated_user_needs_code_witness :
  v_verify_code = v_verify_code
  ∧ is_post (Samples.post [("code", "482913")]) = true
  ∧ ∃ i r, Views.db Samples.awaiting_code !! i = Some r
           ∧ Some (Models.email r)
             = to_python <$> session Samples.awaiting_code !! "user_email"
           ∧ verification_code r
             = POST (Samples.post [("code", "482913")]) !! "code"
           ∧ SStr "ana@x.com" = SStr (Models.email r).
Proof.
  apply (authenticated_user_needs_code Hashers.plain_make_password
           Hashers.plain_check_password unit unit (λ _ _ _, 0%Z) None None
           v_verify_code _ Samples.env0).
  - vm_compute. reflexivity.
  - vm_compute. discriminate.
Defined.

Lemma verified_reset_needs_code_witness :
  v_verify_reset_code = v_verify_reset_code
  ∧ is_post (Samples.post [("code", "482913")]) = true
  ∧ SBool true = SBool true
  ∧ ∃ i r, Views.db Samples.awaiting_reset_code !! i = Some r
           ∧ Some (Models.email r)
             = to_python
                 <$> session Samples.awaiting_reset_code !! "reset_email"
           ∧ verification_code r
             = POST (Samples.post [("code", "482913")]) !! "code".
Proof.
  apply (verified_reset_needs_code Hashers.plain_make_password
           Hashers.plain_check_password unit unit (λ _ _ _, 0%Z) None None
           v_verify_reset_code _ Samples.env0).
  - vm_compute. reflexivity.
  - vm_compute. discriminate.
Defined.

Lemma user_email_needs_password_witness :
  v_login_view = v_login_view
  ∧ is_post (Samples.post [("email", "ana@x.com"); ("password", "Secret1")])
    = true
  ∧ mail_delivered Samples.env0 = true
  ∧ ∃ i r, Views.db Samples.anonymous !! i = Some r
           ∧ Some (Models.email r)
             = POST (Samples.post [("email", "ana@x.com");
                                   ("password", "Secret1")]) !! "email"
           ∧ Hashers.plain_check_password
               (POST (Samples.post [("email", "ana@x.com");
                                    ("password", "Secret1")]) !! "password")
               (Models.password r) = true
           ∧ SStr "ana@x.com" = SStr (Models.email r).
Proof.
  apply (user_email_needs_password Hashers.plain_make_password
           Hashers.plain_check_password unit unit (λ _ _ _, 0%Z) None None
           v_login_view).
  - vm_compute. reflexivity.
  - vm_compute. discriminate.
Defined.

(** ** What the views do to the table *)

Section TableEffect.

Variable make_password : option string → string → string.
Variable check_password : option string → string → bool.
Variables Modelo Tokenizer : Type.
Variable predict : Modelo → Tokenizer → string → Z.
Variable modelo_cargado : option Modelo.
Variable tokenizer_cargado : option Tokenizer.

(** A request leaves the table as it was or writes one row: under a key that
    was free, or over the row it fetched, whose address and names it keeps;
    no other row holds the address of the row written. *)
Lemma call_db_effect v request env w :
  Views.db (call make_password check_password Modelo Tokenizer predict
              modelo_cargado tokenizer_cargado v request env w).2
  = Views.db w
  ∨ ∃ j u',
      Views.db (call make_password check_password Modelo Tokenizer predict
                  modelo_cargado tokenizer_cargado v request env w).2
      = <[j := u']> (Views.db w)
      ∧ (∀ k r, Views.db w !! k = Some r →
                Models.email r = Models.email u' → k = j)
      ∧ (∀ r0, Views.db w !! j = Some r0 →
               Models.email u' = Models.email r0
               ∧ Models.first_name u' = Models.first_name r0
               ∧ Models.last_name u' = Models.last_name r0).
Proof.
  destruct v; unfold call, welcome, login_view, register, verify_code,
    forgot_password, verify_reset_code, reset_password, logout_view, home,
    historia_clinica, hacer_prediccion_view, session_del;
    repeat case_match; simplify_eq;
    cbn [snd Views.db session set_session set_db set_outbox];
    try (by left); right.
  all: repeat match goal with
    | H : objects_get _ _ = Ok _ |- _ =>
        apply objects_get_row in H as (i & r & -> & Hi & HP)
    | H : generate_verification_code _ _ _ _ _ = Ok _ |- _ =>
        apply AppUser_save_Ok in H
          as (j & Hid & -> & Hem & Hfn & Hln & Hc & Hfree & Hj)
    | H : AppUser_save _ _ _ _ = Ok _ |- _ =>
        apply AppUser_save_Ok in H
          as (j & Hid & -> & Hem & Hfn & Hln & Hc & Hfree & Hj)
    end;
    cbn [set_id set_password set_verification_code Models.email
           Models.first_name Models.last_name Models.id] in *.
  all: eexists _, _; split; [reflexivity|].
  all: split;
    [intros k r' Hk He; rewrite Hem in He;
       specialize (Hfree k r' Hk He); by simplify_eq
    |intros r0 Hr0; simplify_eq; by rewrite ?Hem, ?Hfn, ?Hln].
Qed.

(** X11.  No request removes a row of the user table or changes its key, its
    e-mail or its names: a row that is in the table before a request is
    there afterwards, under the same key and with the same address, first
    name and last name. *)
Theorem rows_survive v request env w i r :
  Views.db w !! i = Some r →
  ∃ r',
    Views.db (call make_password check_password Modelo Tokenizer predict
                modelo_cargado tokenizer_cargado v request env w).2 !! i
    = Some r'
    ∧ Models.email r' = Models.email r
    ∧ Models.first_name r' = Models.first_name r
    ∧ Models.last_name r' = Models.last_name r.
Proof.
  intros Hi.
  destruct (call_db_effect v request env w) as [->|(j & u' & -> & _ & Hrow)];
    [by exists r|].
  destruct (decide (i = j)) as [->|Hne].
  - rewrite lookup_insert_eq. exists u'. split; [done|]. by apply Hrow.
  - rewrite lookup_insert_ne by done. by exists r.
Qed.

(** X12.  When no two rows of the table hold the same e-mail before a
    request, none do after it: no view creates a second row for an
    address. *)
Theorem unique_emails_kept v request env w :
  unique_emails (Views.db w) →
  unique_emails
    (Views.db (call make_password check_password Modelo Tokenizer predict
                 modelo_cargado tokenizer_cargado v request env w).2).
Proof.
  intros Huniq.
  destruct (call_db_effect v request env w) as [->|(j & u' & -> & Hfree & _)];
    [done|].
  intros i1 i2 r1 r2 H1 H2 He.
  destruct (decide (i1 = j)) as [->|Hne1], (decide (i2 = j)) as [->|Hne2].
  - done.
  - rewrite lookup_insert_eq in H1. rewrite lookup_insert_ne in H2 by done.
    symmetry. apply (Hfree i2 r2); [done|congruence].
  - rewrite lookup_insert_eq in H2. rewrite lookup_insert_ne in H1 by done.
    apply (Hfree i1 r1); [done|congruence].
  - rewrite lookup_insert_ne in H1, H2 by done.
    by apply (Huniq i1 i2 r1 r2).
Qed.

(** X13.  A request sends no mail or exactly one, and the one it sends goes
    to, and comes from, the address of a row of the table, greets with that
    row's first name, and carries the code the row holds after the request:
    [str] of the value [random.randint] returned. *)
Theorem mail_carries_stored_code v request env w :
  outbox (call make_password check_password Modelo Tokenizer predict
            modelo_cargado tokenizer_cargado v request env w).2
  = outbox w
  ∨ ∃ mail j u',
      outbox (call make_password check_password Modelo Tokenizer predict
                modelo_cargado tokenizer_cargado v request env w).2
      = mail :: outbox w
      ∧ Views.db (call make_password check_password Modelo Tokenizer predict
                    modelo_cargado tokenizer_cargado v request env w).2 !! j
        = Some u'
      ∧ recipient_list mail = [Models.email u']
      ∧ from_email mail = Models.email u'
      ∧ body_first_name mail = Models.first_name u'
      ∧ body_code mail = Some (py_str (randint env))
      ∧ verification_code u' = Some (py_str (randint env)).
Proof.
  destruct v; unfold call, welcome, login_view, register, verify_code,
    forgot_password, verify_reset_code, reset_password, logout_view, home,
    historia_clinica, hacer_prediccion_view, session_del;
    repeat case_match; simplify_eq;
    cbn [snd Views.db outbox session set_session set_db set_outbox];
    try (by left); right.
  all: match goal with
    | H : generate_verification_code _ _ _ _ _ = Ok _ |- _ =>
        apply AppUser_save_Ok in H
          as (j & Hid & -> & Hem & Hfn & Hln & Hc & Hfree & Hj)
    end.
  all: eexists _, j, _; split; [reflexivity|];
    split; [apply lookup_insert_eq|]; cbn [recipient_list from_email
      body_first_name body_code]; rewrite Hc; done.
Qed.

End TableEffect.

Lemma rows_survive_witness :
  ∃ r',
    Views.db (call Hashers.plain_make_password Hashers.plain_check_password
                unit unit (λ _ _ _, 0%Z) None None v_reset_password
                (Samples.post [("password", "Secret2")]) Samples.env0
                Samples.reset_authorized).2 !! 1
    = Some r'
    ∧ Models.email r' = Models.email Samples.ana
    ∧ Models.first_name r' = Models.first_name Samples.ana
    ∧ Models.last_name r' = Models.last_name Samples.ana.
Proof.
  apply rows_survive. reflexivity.
Defined.

Lemma unique_emails_kept_witness :
  unique_emails
    (Views.db (call Hashers.plain_make_password Hashers.plain_check_password
                 unit unit (λ _ _ _, 0%Z) None None v_register
                 Samples.register_luis Samples.env0 Samples.anonymous).2).
Proof.
  apply unique_emails_kept.
  change (Views.db Samples.anonymous)
    with ({[ 1 := Samples.ana ]} : gmap nat AppUser).
  intros i j r r' [<- _]%lookup_singleton_Some [<- _]%lookup_singleton_Some _.
  reflexivity.
Defined.

(** ** Steps of the two flows *)

Section Steps.

Variable make_password : option string → string → string.
Variable check_password : option string → string → bool.

(** [forgot_password] for the address of a registered user. *)
Lemma forgot_password_step request env w e u :
  is_post request = true →
  POST request !! "email" = Some e →
  objects_get (email_is (Some e)) (Views.db w) = Ok u →
  ∃ u' t',
    verification_code u' = Some (py_str (randint env))
    ∧ objects_get (email_is (Some e)) t' = Ok u'
    ∧ forgot_password make_password request env w
      = if mail_delivered env then
          (Redirect "verify_reset_code",
           mkWorld t' (<["reset_email" := SStr e]> (session w))
             (mkMail "🔐 Recuperación de contraseña - NEX"
                (Models.first_name u') (Some (py_str (randint env))) e [e]
                :: outbox w))
        else (ServerError SMTPException, mkWorld t' (session w) (outbox w)).
Proof.
  intros Hpost Hem Hu.
  destruct (generate_verification_code_fetched make_password (randint env)
              (salt_save env) (Views.db w) e u Hu)
    as (u' & t' & Hgen & Hc & _ & He & Hget).
  exists u', t'. split; [done|]. split; [done|].
  unfold forgot_password. rewrite Hpost, Hem, Hu, Hgen, Hc, He.
  by destruct (mail_delivered env).
Qed.

(** [login_view] with the address of a registered user and a password that
    [check_password] accepts. *)
Lemma login_view_step request env w e u :
  is_post request = true →
  POST request !! "email" = Some e →
  objects_get (email_is (Some e)) (Views.db w) = Ok u →
  check_password (POST request !! "password") (Models.password u) = true →
  ∃ u' t',
    verification_code u' = Some (py_str (randint env))
    ∧ objects_get (email_is (Some e)) t' = Ok u'
    ∧ login_view make_password check_password request env w
      = if mail_delivered env then
          (Redirect "verify_code",
           mkWorld t' (<["user_email" := SStr e]> (session w))
             (mkMail "🔐 Tu código de verificación - NEX"
                (Models.first_name u') (Some (py_str (randint env))) e [e]
                :: outbox w))
        else (ServerError SMTPException, mkWorld t' (session w) (outbox w)).
Proof.
  intros Hpost Hem Hu Hck.
  destruct (generate_verification_code_fetched make_password (randint env)
              (salt_save env) (Views.db w) e u Hu)
    as (u' & t' & Hgen & Hc & _ & He & Hget).
  exists u', t'. split; [done|]. split; [done|].
  unfold login_view, AppUser_check_password.
  rewrite Hpost, Hem, Hu, Hck, Hgen, Hc, He.
  by destruct (mail_delivered env).
Qed.

Hypothesis sound : Hashers.Sound make_password check_password.

(** [reset_password] in a session authorized to reset the password of a
    registered user. *)
Lemma reset_password_step request env w e u new_password :
  session w !! "reset_email" = Some (SStr e) →
  e ≠ "" →
  session w !! "verified_reset" = Some (SBool true) →
  objects_get (email_is (Some e)) (Views.db w) = Ok u →
  is_post request = true →
  POST request !! "password" = Some new_password →
  ∃ u' t',
    Models.password u' = make_password (Some new_password) (salt_view env)
    ∧ verification_code u' = None
    ∧ objects_get (email_is (Some e)) t' = Ok u'
    ∧ reset_password make_password request env w
      = (Redirect "login",
         mkWorld t'
           (delete "verified_reset" (delete "reset_email" (session w)))
           (outbox w)).
Proof.
  intros Hs He Hv Hu Hpost Hpw.
  pose proof Hu as (i & r & Hur & Hid & Hem & Hi & Huniq)%objects_get_email_Ok.
  set (u' := set_verification_code None
               (set_password (make_password (Some new_password) (salt_view env))
                  u)).
  assert (∀ j r', Views.db w !! j = Some r' →
                  Models.email r' = Models.email u' → j = i) as Huniq'
    by (by rewrite <-Hem in Huniq).
  exists u', (<[i := u']> (Views.db w)).
  split; [done|]. split; [done|].
  split; [rewrite <-Hem; by apply (objects_get_email_insert _ i u')|].
  unfold reset_password. rewrite Hs, Hv, Hpost, Hpw, (truthy_SStr e He).
  cbn [truthy negb orb fmap option_fmap option_map to_python].
  rewrite Hu. fold u'.
  rewrite (AppUser_save_encoded make_password check_password sound
             _ u' _ new_password (salt_view env)) by done.
  rewrite (Model_save_fetched (Views.db w) u' i) by done.
  unfold session_del. cbn [session set_db].
  by rewrite Hs, lookup_delete_ne, Hv.
Qed.

End Steps.

(** ** The flows from end to end *)

(** What [verify_code] does with a POST in a session that awaits a code. *)
Lemma verify_code_awaiting request w e :
  session w !! "user_email" = Some (SStr e) →
  e ≠ "" →
  is_post request = true →
  (∀ u, objects_get (email_is (Some e)) (Views.db w) = Ok u →
        POST request !! "code" = verification_code u →
        verify_code request w
        = (Redirect "home",
           set_session (<["authenticated_user" := SStr e]> (session w)) w))
  ∧ (∀ u, objects_get (email_is (Some e)) (Views.db w) = Ok u →
          POST request !! "code" ≠ verification_code u →
          verify_code request w
          = (Render "verify_code.html"
               [("error", Some "Código incorrecto.")], w)).
Proof.
  intros Hs He Hpost. unfold verify_code.
  rewrite Hs, Hpost, (truthy_SStr e He).
  cbn [negb fmap option_fmap option_map to_python].
  split; intros u Hu Hcode.
  - rewrite Hcode, (objects_get_email_code_own _ _ _ Hu).
    by apply objects_get_email_Ok in Hu as (i & r & -> & _ & <- & _).
  - by rewrite (objects_get_email_code_other _ _ _ _ Hu Hcode).
Qed.

(** X14.  The login flow composes: a login POST with the address of a
    registered user and a password [check_password] accepts, whose mail is
    delivered, redirects to [verify_code]; there, a POST with the code that
    was mailed ([str] of the drawn number) sets [authenticated_user] to the
    address and redirects to [home], which then renders, while a POST with
    any other code is refused and changes nothing. *)
Theorem login_flow_completes make_password check_password
    request env w e u code_request other_request request' :
  is_post request = true →
  POST request !! "email" = Some e →
  e ≠ "" →
  objects_get (email_is (Some e)) (Views.db w) = Ok u →
  check_password (POST request !! "password") (Models.password u) = true →
  mail_delivered env = true →
  is_post code_request = true →
  POST code_request !! "code" = Some (py_str (randint env)) →
  is_post other_request = true →
  POST other_request !! "code" ≠ Some (py_str (randint env)) →
  ∃ w1 w2,
    login_view make_password check_password request env w
    = (Redirect "verify_code", w1)
    ∧ verify_code other_request w1
      = (Render "verify_code.html" [("error", Some "Código incorrecto.")], w1)
    ∧ verify_code code_request w1 = (Redirect "home", w2)
    ∧ session w2 !! "authenticated_user" = Some (SStr e)
    ∧ home request' w2 = (Render "home.html" [], w2).
Proof.
  intros Hpost Hem He Hu Hck Hmail Hpost' Hcode Hpost'' Hother.
  destruct (login_view_step make_password check_password request env w e u
              Hpost Hem Hu Hck) as (u' & t' & Hc & Hget & Hlogin).
  rewrite Hmail in Hlogin. eexists _, _. split; [exact Hlogin|].
  set (w1 := mkWorld t' _ _).
  assert (session w1 !! "user_email" = Some (SStr e)) as Hs
    by apply lookup_insert_eq.
  destruct (verify_code_awaiting other_request w1 e Hs He Hpost'')
    as [_ Hwrong].
  destruct (verify_code_awaiting code_request w1 e Hs He Hpost')
    as [Hright _].
  split; [apply (Hwrong u' Hget); by rewrite Hc|].
  split; [apply (Hright u' Hget); by rewrite Hc|].
  cbn [session set_session]. split; [by rewrite lookup_insert_eq|].
  unfold home. cbn [session set_session].
  by rewrite lookup_insert_eq, (truthy_SStr e He).
Qed.

Lemma login_flow_completes_witness :
  ∃ w1 w2,
    login_view Hashers.plain_make_password Hashers.plain_check_password
      (Samples.post [("email", "ana@x.com"); ("password", "Secret1")])
      Samples.env0 Samples.anonymous
    = (Redirect "verify_code", w1)
    ∧ verify_code (Samples.post [("code", "000000")]) w1
      = (Render "verify_code.html" [("error", Some "Código incorrecto.")], w1)
    ∧ verify_code (Samples.post [("code", "482913")]) w1
      = (Redirect "home", w2)
    ∧ session w2 !! "authenticated_user" = Some (SStr "ana@x.com")
    ∧ home (Samples.get []) w2 = (Render "home.html" [], w2).
Proof.
  apply (login_flow_completes _ _ _ _ _ "ana@x.com" Samples.ana).
  - reflexivity.
  - vm_compute. reflexivity.
  - discriminate.
  - vm_compute. reflexivity.
  - vm_compute. reflexivity.
  - reflexivity.
  - reflexivity.
  - vm_compute. reflexivity.
  - reflexivity.
  - vm_compute. discriminate.
Defined.

(** X15.  The reset flow composes: [forgot_password] for the address of a
    registered user, whose mail is delivered, redirects to
    [verify_reset_code]; a POST there with the mailed code redirects to
    [reset_password]; a POST there with a new password redirects to [login].
    Afterwards the user's row accepts the new password and holds no code, the
    session holds neither [reset_email] nor [verified_reset], and
    [authenticated_user] is as it was before the flow. *)
Theorem reset_flow_completes make_password check_password
    request env w e u code_request reset_request env' new_password :
  Hashers.Sound make_password check_password →
  is_post request = true →
  POST request !! "email" = Some e →
  e ≠ "" →
  objects_get (email_is (Some e)) (Views.db w) = Ok u →
  mail_delivered env = true →
  is_post code_request = true →
  POST code_request !! "code" = Some (py_str (randint env)) →
  is_post reset_request = true →
  POST reset_request !! "password" = Some new_password →
  ∃ w1 w2 w3 u3,
    forgot_password make_password request env w
    = (Redirect "verify_reset_code", w1)
    ∧ verify_reset_code code_request w1 = (Redirect "reset_password", w2)
    ∧ reset_password make_password reset_request env' w2
      = (Redirect "login", w3)
    ∧ objects_get (email_is (Some e)) (Views.db w3) = Ok u3
    ∧ check_password (Some new_password) (Models.password u3) = true
    ∧ verification_code u3 = None
    ∧ session w3 !! "reset_email" = None
    ∧ session w3 !! "verified_reset" = None
    ∧ session w3 !! "authenticated_user" = session w !! "authenticated_user".
Proof.
  intros Hsound Hpost Hem He Hu Hmail Hpost1 Hcode Hpost2 Hpw.
  destruct (forgot_password_step make_password request env w e u Hpost Hem Hu)
    as (u1 & t1 & Hc1 & Hget1 & Hforgot).
  rewrite Hmail in Hforgot.
  set (w1 := mkWorld t1 (<["reset_email" := SStr e]> (session w))
               (mkMail _ _ _ _ _ :: outbox w)) in Hforgot.
  set (w2 := set_session (<["verified_reset" := SBool true]> (session w1)) w1).
  assert (verify_reset_code code_request w1 = (Redirect "reset_password", w2))
    as Hverify.
  { unfold verify_reset_code, w2, w1. cbn [session Views.db].
    rewrite lookup_insert_eq, (truthy_SStr e He), Hpost1, Hcode, <-Hc1.
    cbn [negb fmap option_fmap option_map to_python].
    by rewrite (objects_get_email_code_own t1 e u1 Hget1). }
  destruct (reset_password_step make_password check_password Hsound
              reset_request env' w2 e u1 new_password)
    as (u3 & t3 & Hp3 & Hc3 & Hget3 & Hreset); try done.
  { cbn [session w2 set_session w1].
    by rewrite lookup_insert_ne, lookup_insert_eq. }
  { cbn [session w2 set_session]. by rewrite lookup_insert_eq. }
  eexists w1, w2, _, u3.
  split; [done|]. split; [done|]. split; [exact Hreset|].
  cbn [Views.db session]. split; [done|].
  split; [rewrite Hp3; apply (Hashers.check_accepts _ _ Hsound)|].
  split; [done|].
  split; [by rewrite lookup_delete_ne, lookup_delete_eq|].
  split; [by rewrite lookup_delete_eq|].
  rewrite !lookup_delete_ne by done. cbn [session w2 set_session w1].
  by rewrite !lookup_insert_ne.
Qed.

Lemma reset_flow_completes_witness :
  ∃ w1 w2 w3 u3,
    forgot_password Hashers.plain_make_password
      (Samples.post [("email", "ana@x.com")]) Samples.env0 Samples.anonymous
    = (Redirect "verify_reset_code", w1)
    ∧ verify_reset_code (Samples.post [("code", "482913")]) w1
      = (Redirect "reset_password", w2)
    ∧ reset_password Hashers.plain_make_password
        (Samples.post [("password", "Secret2")]) Samples.env0 w2
      = (Redirect "login", w3)
    ∧ objects_get (email_is (Some "ana@x.com")) (Views.db w3) = Ok u3
    ∧ Hashers.plain_check_password (Some "Secret2") (Models.password u3)
      = true
    ∧ verification_code u3 = None
    ∧ session w3 !! "reset_email" = None
    ∧ session w3 !! "verified_reset" = None
    ∧ session w3 !! "authenticated_user"
      = session Samples.anonymous !! "authenticated_user".
Proof.
  apply (reset_flow_completes _ Hashers.plain_check_password _ _ _
           "ana@x.com" Samples.ana).
  - exact plain_sound.
  - reflexivity.
  - vm_compute. reflexivity.
  - discriminate.
  - vm_compute. reflexivity.
  - reflexivity.
  - reflexivity.
  - vm_compute. reflexivity.
  - reflexivity.
  - vm_compute. reflexivity.
Defined.

(** X16.  [verified_reset] is not bound to an address.  In a session where
    it is [True], [forgot_password] for the address of any registered user,
    whose mail is delivered, followed directly by a POST to [reset_password],
    sets that user's password: the code mailed to that user is never asked
    for. *)
Theorem verified_reset_outlives_address make_password check_password
    request env w e u reset_request env' new_password :
  Hashers.Sound make_password check_password →
  session w !! "verified_reset" = Some (SBool true) →
  is_post request = true →
  POST request !! "email" = Some e →
  e ≠ "" →
  objects_get (email_is (Some e)) (Views.db w) = Ok u →
  mail_delivered env = true →
  is_post reset_request = true →
  POST reset_request !! "password" = Some new_password →
  ∃ w1 w2 u2,
    forgot_password make_password request env w
    = (Redirect "verify_reset_code", w1)
    ∧ reset_password make_password reset_request env' w1
      = (Redirect "login", w2)
    ∧ objects_get (email_is (Some e)) (Views.db w2) = Ok u2
    ∧ check_password (Some new_password) (Models.password u2) = true.
Proof.
  intros Hsound Hv Hpost Hem He Hu Hmail Hpost2 Hpw.
  destruct (forgot_password_step make_password request env w e u Hpost Hem Hu)
    as (u1 & t1 & Hc1 & Hget1 & Hforgot).
  rewrite Hmail in Hforgot.
  set (w1 := mkWorld t1 (<["reset_email" := SStr e]> (session w))
               (mkMail _ _ _ _ _ :: outbox w)) in Hforgot.
  destruct (reset_password_step make_password check_password Hsound
              reset_request env' w1 e u1 new_password)
    as (u2 & t2 & Hp2 & _ & Hget2 & Hreset); try done.
  { cbn [session w1]. by rewrite lookup_insert_eq. }
  { cbn [session w1]. by rewrite lookup_insert_ne. }
  eexists w1, _, u2. split; [done|]. split; [exact Hreset|].
  split; [done|]. rewrite Hp2. apply (Hashers.check_accepts _ _ Hsound).
Qed.

Lemma verified_reset_outlives_address_witness :
  ∃ w1 w2 u2,
    forgot_password Hashers.plain_make_password
      (Samples.post [("email", "luis@x.com")]) Samples.env0
      Samples.reset_authorized_two
    = (Redirect "verify_reset_code", w1)
    ∧ reset_password Hashers.plain_make_password
        (Samples.post [("password", "Intruso1")]) Samples.env0 w1
      = (Redirect "login", w2)
    ∧ objects_get (email_is (Some "luis@x.com")) (Views.db w2) = Ok u2
    ∧ Hashers.plain_check_password (Some "Intruso1") (Models.password u2)
      = true.
Proof.
  apply (verified_reset_outlives_address _ Hashers.plain_check_password _ _ _
           "luis@x.com" Samples.luis).
  - exact plain_sound.
  - reflexivity.
  - reflexivity.
  - vm_compute. reflexivity.
  - discriminate.
  - vm_compute. reflexivity.
  - reflexivity.
  - reflexivity.
  - vm_compute. reflexivity.
Defined.

(** X17.  When [send_mail] fails, [login_view] (after the password check)
    and [forgot_password] end in the exception, with the session and the
    mails as they were; the new code is already stored on the user's row, so
    the code issued before is no longer the stored one although no mail
    went out. *)
Theorem mail_failure_keeps_new_code make_password check_password
    request env w e u :
  is_post request = true →
  POST request !! "email" = Some e →
  objects_get (email_is (Some e)) (Views.db w) = Ok u →
  mail_delivered env = false →
  (∃ w' u',
     forgot_password make_password request env w
     = (ServerError SMTPException, w')
     ∧ session w' = session w ∧ outbox w' = outbox w
     ∧ objects_get (email_is (Some e)) (Views.db w') = Ok u'
     ∧ verification_code u' = Some (py_str (randint env)))
  ∧ (check_password (POST request !! "password") (Models.password u) = true →
     ∃ w' u',
       login_view make_password check_password request env w
       = (ServerError SMTPException, w')
       ∧ session w' = session w ∧ outbox w' = outbox w
       ∧ objects_get (email_is (Some e)) (Views.db w') = Ok u'
       ∧ verification_code u' = Some (py_str (randint env))).
Proof.
  intros Hpost Hem Hu Hmail. split.
  - destruct (forgot_password_step make_password request env w e u
                Hpost Hem Hu) as (u' & t' & Hc & Hget & ->).
    rewrite Hmail. by eexists _, u'.
  - intros Hck.
    destruct (login_view_step make_password check_password request env w e u
                Hpost Hem Hu Hck) as (u' & t' & Hc & Hget & ->).
    rewrite Hmail. by eexists _, u'.
Qed.

Lemma mail_failure_keeps_new_code_witness :
  ∃ w' u',
    forgot_password Hashers.plain_make_password
      (Samples.post [("email", "ana@x.com")]) Samples.env_no_mail
      Samples.anonymous
    = (ServerError SMTPException, w')
    ∧ session w' = session Samples.anonymous
    ∧ outbox w' = outbox Samples.anonymous
    ∧ objects_get (email_is (Some "ana@x.com")) (Views.db w') = Ok u'
    ∧ verification_code u' = Some (py_str (randint Samples.env_no_mail)).
Proof.
  apply (mail_failure_keeps_new_code Hashers.plain_make_password
           Hashers.plain_check_password _ _ _ "ana@x.com" Samples.ana).
  - reflexivity.
  - vm_compute. reflexivity.
  - vm_compute. reflexivity.
  - reflexivity.
Defined.

(** X18.  The two flows share the code of the row.  In a session that awaits
    a login code, once [forgot_password] has issued a reset code for the same
    user, [verify_code] accepts the reset code and refuses every other code,
    the login code mailed before included. *)
Theorem reset_code_opens_login make_password request env w e u
    code_request other_request :
  session w !! "user_email" = Some (SStr e) →
  e ≠ "" →
  is_post request = true →
  POST request !! "email" = Some e →
  objects_get (email_is (Some e)) (Views.db w) = Ok u →
  mail_delivered env = true →
  is_post code_request = true →
  POST code_request !! "code" = Some (py_str (randint env)) →
  is_post other_request = true →
  POST other_request !! "code" ≠ Some (py_str (randint env)) →
  ∃ w1,
    forgot_password make_password request env w
    = (Redirect "verify_reset_code", w1)
    ∧ verify_code code_request w1
      = (Redirect "home",
         set_session (<["authenticated_user" := SStr e]> (session w1)) w1)
    ∧ verify_code other_request w1
      = (Render "verify_code.html" [("error", Some "Código incorrecto.")],
         w1).
Proof.
  intros Hs He Hpost Hem Hu Hmail Hpost1 Hcode Hpost2 Hother.
  destruct (forgot_password_step make_password request env w e u Hpost Hem Hu)
    as (u1 & t1 & Hc1 & Hget1 & Hforgot).
  rewrite Hmail in Hforgot. eexists. split; [exact Hforgot|].
  set (w1 := mkWorld t1 _ _).
  assert (session w1 !! "user_email" = Some (SStr e)) as Hs1
    by (cbn [session w1]; by rewrite lookup_insert_ne).
  destruct (verify_code_awaiting code_request w1 e Hs1 He Hpost1)
    as [Hright _].
  destruct (verify_code_awaiting other_request w1 e Hs1 He Hpost2)
    as [_ Hwrong].
  split; [apply (Hright u1 Hget1); by rewrite Hc1|].
  apply (Hwrong u1 Hget1). by rewrite Hc1.
Qed.

Lemma reset_code_opens_login_witness :
  ∃ w1,
    forgot_password Hashers.plain_make_password
      (Samples.post [("email", "ana@x.com")])
      (mkEnv 271828 "s1" "s2" true) Samples.awaiting_code
    = (Redirect "verify_reset_code", w1)
    ∧ verify_code (Samples.post [("code", "271828")]) w1
      = (Redirect "home",
         set_session (<["authenticated_user" := SStr "ana@x.com"]>
                        (session w1)) w1)
    ∧ verify_code (Samples.post [("code", "482913")]) w1
      = (Render "verify_code.html" [("error", Some "Código incorrecto.")],
         w1).
Proof.
  apply (reset_code_opens_login _ _ _ _ "ana@x.com" Samples.ana).
  - reflexivity.
  - discriminate.
  - reflexivity.
  - vm_compute. reflexivity.
  - vm_compute. reflexivity.
  - reflexivity.
  - reflexivity.
  - vm_compute. reflexivity.
  - reflexivity.
  - vm_compute. discriminate.
Defined.

(** ** Saving again, registering again *)

Lemma AppUser_save_prefix make_password check_password salt u
    (t : gmap nat AppUser) u' t' :
  Hashers.Sound make_password check_password →
  AppUser_save make_password salt u t = Ok (u', t') →
  String.prefix "pbkdf2_sha256$" (Models.password u') = true.
Proof.
  intros Hsound H. unfold AppUser_save, Model_save in H.
  destruct (email_held_by_other _ t); [done|]. injection H as <- _.
  destruct (String.prefix "pbkdf2_sha256$" (Models.password u)) eqn:Hp; simpl;
    [done|apply (Hashers.encoded_prefix _ _ Hsound)].
Qed.

(** X19.  Saving is idempotent: an instance that [AppUser.save] has just
    written can be saved again, with whatever salt, and neither the instance
    nor the table changes; in particular the password is not hashed a second
    time. *)
Theorem AppUser_save_twice make_password check_password salt salt' u
    (t : gmap nat AppUser) u' t' :
  Hashers.Sound make_password check_password →
  AppUser_save make_password salt u t = Ok (u', t') →
  AppUser_save make_password salt' u' t' = Ok (u', t').
Proof.
  intros Hsound Hsave.
  pose proof (AppUser_save_prefix _ _ _ _ _ _ _ Hsound Hsave) as Hp.
  apply AppUser_save_Ok in Hsave
    as (j & Hid & -> & Hem & _ & _ & _ & Hfree & Hj).
  unfold AppUser_save. rewrite Hp. cbn [negb].
  rewrite (Model_save_fetched _ u' j Hid); [by rewrite insert_insert_eq|].
  intros k r Hk He. destruct (decide (k = j)) as [|Hne]; [done|].
  rewrite lookup_insert_ne in Hk by done. rewrite Hem in He.
  specialize (Hfree k r Hk He). destruct (id u); by simplify_eq.
Qed.

Lemma AppUser_save_twice_witness :
  AppUser_save Hashers.plain_make_password "s3" Samples.eli_saved
    (<[2 := Samples.eli_saved]> Samples.db_ana)
  = Ok (Samples.eli_saved, <[2 := Samples.eli_saved]> Samples.db_ana).
Proof.
  apply (AppUser_save_twice _ Hashers.plain_check_password "s2" "s3"
           Samples.eli Samples.db_ana).
  - exact plain_sound.
  - vm_compute. reflexivity.
Defined.

(** X20.  When [forgot_password] (or any other caller of
    [generate_verification_code]) meets a row whose stored password does not
    start with [pbkdf2_sha256$], issuing the code replaces the stored
    password by the encoding of the stored text: the save inside
    [generate_verification_code] hashes whatever lacks the prefix. *)
Theorem generate_verification_code_rehashes make_password n salt
    (t : gmap nat AppUser) e u :
  objects_get (email_is (Some e)) t = Ok u →
  String.prefix "pbkdf2_sha256$" (Models.password u) = false →
  ∃ u' t',
    generate_verification_code make_password n salt u t = Ok (u', t')
    ∧ objects_get (email_is (Some e)) t' = Ok u'
    ∧ Models.password u' = make_password (Some (Models.password u)) salt.
Proof.
  intros Hu Hp.
  destruct (generate_verification_code_fetched make_password n salt t e u Hu)
    as (u' & t' & Hgen & _ & _ & _ & Hget).
  exists u', t'. split; [done|]. split; [done|].
  unfold generate_verification_code, AppUser_save, Model_save in Hgen.
  destruct (email_held_by_other _ t); [done|]. injection Hgen as <- _.
  cbn [set_verification_code Models.password]. by rewrite Hp.
Qed.

Lemma generate_verification_code_rehashes_witness :
  ∃ u' t',
    generate_verification_code Hashers.plain_make_password 482913 "s2"
      (set_id 1 Samples.eli) {[ 1 := Samples.eli ]} = Ok (u', t')
    ∧ objects_get (email_is (Some "eli@x.com")) t' = Ok u'
    ∧ Models.password u'
      = Hashers.plain_make_password
          (Some (Models.password (set_id 1 Samples.eli))) "s2".
Proof.
  apply (generate_verification_code_rehashes _ _ _ _ "eli@x.com").
  - vm_compute. reflexivity.
  - reflexivity.
Defined.

(** X21.  After a registration that succeeded, a second registration POST
    with the same e-mail and the other fields filled in is refused with "El
    correo ya está en uso" and changes nothing. *)
Theorem register_twice make_password request env w w1 request' env' :
  register make_password request env w = (Redirect "login", w1) →
  is_post request' = true →
  py_not (POST request' !! "first_name") = false →
  py_not (POST request' !! "last_name") = false →
  py_not (POST request' !! "password") = false →
  POST request' !! "email" = POST request !! "email" →
  register make_password request' env' w1
  = (Render "register.html" [("error", Some "El correo ya está en uso")], w1).
Proof.
  intros H Hpost Hfn Hln Hpw Hem. unfold register in H.
  destruct (is_post request); [|done].
  destruct (py_not (POST request !! "first_name")
            || py_not (POST request !! "last_name")
            || py_not (POST request !! "email")
            || py_not (POST request !! "password")) eqn:Hnot; [done|].
  destruct (objects_exists _ _); [done|].
  destruct (AppUser_save _ _ _ _) as [[u' t']|] eqn:Hsave; [|done].
  injection H as <-.
  apply AppUser_save_Ok in Hsave as (j & _ & -> & Hemail & _).
  rewrite !orb_false_iff in Hnot. destruct Hnot as [[_ Hne] _].
  destruct (POST request !! "email") as [em|] eqn:Hq; [|done].
  cbn [default Models.email] in Hemail.
  unfold register. rewrite Hpost, Hfn, Hln, Hpw, Hem, Hne. cbn [orb].
  cbn [Views.db set_db].
  rewrite (objects_exists_true _ _ j u'); [done|apply lookup_insert_eq|].
  by apply email_is_Some.
Qed.

Lemma register_twice_witness :
  register Hashers.plain_make_password
    (Samples.post [("first_name", "Luisa"); ("last_name", "Marin");
                   ("email", "luis@x.com"); ("password", "Otra77")])
    Samples.env0
    (register Hashers.plain_make_password Samples.register_luis Samples.env0
       Samples.anonymous).2
  = (Render "register.html" [("error", Some "El correo ya está en uso")],
     (register Hashers.plain_make_password Samples.register_luis Samples.env0
        Samples.anonymous).2).
Proof.
  apply (register_twice _ Samples.register_luis Samples.env0
           Samples.anonymous).
  - vm_compute. reflexivity.
  - reflexivity.
  - vm_compute. reflexivity.
  - vm_compute. reflexivity.
  - vm_compute. reflexivity.
  - vm_compute. reflexivity.
Defined.

(** ** The classifier after the load *)

(** X22.  With the globals the module-level load leaves, the classifier
    answers with the fixed error text exactly when the load failed (the model
    directory is missing, or loading the model or the tokenizer raised);
    when it succeeded the answer is "Control Sano (CO)" for index 0, "Cáncer
    Colorrectal (CRC)" for index 1 and "Categoría Desconocida" for any other
    index. *)
Theorem prediction_after_load {Modelo Tokenizer : Type}
    (predict : Modelo → Tokenizer → string → Z) directorio_existe
    (modelo : Result Modelo) (tokenizer : Result Tokenizer) texto :
  (directorio_existe = false ∨ (∃ e, modelo = Raise e)
   ∨ (∃ e, tokenizer = Raise e) →
   predecir_con_modelo_entrenado Modelo Tokenizer predict
     (cargar_modelo Modelo Tokenizer directorio_existe modelo tokenizer).1
     (cargar_modelo Modelo Tokenizer directorio_existe modelo tokenizer).2
     texto
   = "Error: Modelo no disponible. Revisa los logs del servidor.")
  ∧ (∀ m t, directorio_existe = true → modelo = Ok m → tokenizer = Ok t →
       predecir_con_modelo_entrenado Modelo Tokenizer predict
         (cargar_modelo Modelo Tokenizer directorio_existe modelo tokenizer).1
         (cargar_modelo Modelo Tokenizer directorio_existe modelo tokenizer).2
         texto
       = if decide (predict m t texto = 0%Z) then "Control Sano (CO)"
         else if decide (predict m t texto = 1%Z)
              then "Cáncer Colorrectal (CRC)"
              else "Categoría Desconocida").
Proof.
  split.
  - intros H. by rewrite (cargar_modelo_failed _ _ _ H).
  - intros m t -> -> ->. cbn [cargar_modelo negb fst snd].
    unfold predecir_con_modelo_entrenado, labels.
    destruct (predict m t texto) as [|[| |]|]; done.
Qed.

Lemma prediction_after_load_witness :
  predecir_con_modelo_entrenado unit unit (λ _ _ _, 1%Z)
    (cargar_modelo unit unit true (Ok ()) (Raise DoesNotExist)).1
    (cargar_modelo unit unit true (Ok ()) (Raise DoesNotExist)).2
    "dolor abdominal"
  = "Error: Modelo no disponible. Revisa los logs del servidor."
  ∧ predecir_con_modelo_entrenado unit unit (λ _ _ _, 1%Z)
      (cargar_modelo unit unit true (Ok ()) (Ok ())).1
      (cargar_modelo unit unit true (Ok ()) (Ok ())).2
      "dolor abdominal"
    = "Cáncer Colorrectal (CRC)".
Proof.
  split.
  - apply (prediction_after_load (λ _ _ _, 1%Z)). right. right. by eexists.
  - apply (proj2 (prediction_after_load (λ _ _ _, 1%Z) true (Ok ()) (Ok ())
                    "dolor abdominal") () ()); reflexivity.
Defined.
